(** * Rigid-body engine: body kinematics, mass data, sleep heuristic,
      layer manager and world queries.

    Shallow embedding of [src/dynamic/body/body.ts],
    [src/render/LayerManager.ts], [src/dynamic/core.ts] and the shape
    classes of the unnamed source file.  Methods that
    mutate [this] become functions from the object's state to its new
    state. *)

From Stdlib Require Import QArith Qround Lqa ZArith List Bool String Lia.
From stdpp Require Import gmap list fin_maps.

Local Open Scope Z_scope.

(** ** JavaScript numbers

    A [number] is an exact rational, one of the two infinities, or NaN.
    Binary64 rounding and the sign of zero are not represented; the special
    values follow IEEE 754 as JavaScript applies it.  Finite results are kept
    in lowest terms with [Qred], so a computed value has one representation. *)
Module JS.

Inductive number : Type :=
  | Fin (q : Q)
  | PInf
  | NInf
  | NaN.

Definition num (z : Z) : number := Fin (inject_Z z).

Definition Qsgn (q : Q) : Z := Z.sgn (Qnum q).

(** The infinity with the sign [s], NaN for [s = 0]. *)
Definition inf_of_sgn (s : Z) : number :=
  match s with
  | Z0 => NaN
  | Zpos _ => PInf
  | Zneg _ => NInf
  end.

Definition sgn (a : number) : option Z :=
  match a with
  | Fin q => Some (Qsgn q)
  | PInf => Some 1
  | NInf => Some (-1)
  | NaN => None
  end.

(** [a + b] *)
Definition add (a b : number) : number :=
  match a, b with
  | NaN, _ | _, NaN => NaN
  | Fin x, Fin y => Fin (Qred (x + y))
  | PInf, NInf | NInf, PInf => NaN
  | PInf, _ | _, PInf => PInf
  | NInf, _ | _, NInf => NInf
  end.

(** [-a] *)
Definition neg (a : number) : number :=
  match a with
  | Fin x => Fin (Qred (- x))
  | PInf => NInf
  | NInf => PInf
  | NaN => NaN
  end.

(** [a - b] *)
Definition sub (a b : number) : number :=
  match a, b with
  | NaN, _ | _, NaN => NaN
  | Fin x, Fin y => Fin (Qred (x - y))
  | PInf, PInf | NInf, NInf => NaN
  | PInf, _ | _, NInf => PInf
  | NInf, _ | _, PInf => NInf
  end.

(** [a * b]: zero times an infinity is NaN. *)
Definition mul (a b : number) : number :=
  match a, b with
  | Fin x, Fin y => Fin (Qred (x * y))
  | _, _ =>
      match sgn a, sgn b with
      | Some s, Some t => inf_of_sgn (s * t)
      | _, _ => NaN
      end
  end.

(** [a / b]: a nonzero finite number over zero is an infinity, [0 / 0] is
    NaN, a finite number over an infinity is zero. *)
Definition div (a b : number) : number :=
  match a, b with
  | NaN, _ | _, NaN => NaN
  | Fin x, Fin y =>
      if Qeq_bool y 0 then inf_of_sgn (Qsgn x) else Fin (Qred (x / y))
  | Fin _, _ => Fin 0
  | _, Fin y => inf_of_sgn (match sgn a with Some s => s | None => 0 end
                            * (if Qeq_bool y 0 then 1 else Qsgn y))
  | _, _ => NaN
  end.

(** Truncation towards zero. *)
Definition Qtrunc (q : Q) : Z := Z.quot (Qnum q) (Zpos (Qden q)).

(** [a % b]: the remainder takes the sign of the dividend. *)
Definition rem (a b : number) : number :=
  match a, b with
  | Fin x, Fin y =>
      if Qeq_bool y 0 then NaN
      else Fin (Qred (x - y * inject_Z (Qtrunc (x / y))))
  | Fin x, (PInf | NInf) => Fin x
  | _, _ => NaN
  end.

(** [a === b] on numbers (also [a == b]): NaN equals nothing. *)
Definition eqb (a b : number) : bool :=
  match a, b with
  | Fin x, Fin y => Qeq_bool x y
  | PInf, PInf | NInf, NInf => true
  | _, _ => false
  end.

(** [a < b] *)
Definition ltb (a b : number) : bool :=
  match a, b with
  | NaN, _ | _, NaN => false
  | Fin x, Fin y => negb (Qle_bool y x)
  | PInf, _ | _, NInf => false
  | NInf, _ | _, PInf => true
  end.

(** [a >= b] *)
Definition geb (a b : number) : bool :=
  match a, b with
  | NaN, _ | _, NaN => false
  | Fin x, Fin y => Qle_bool y x
  | PInf, _ | _, NInf => true
  | NInf, _ | _, PInf => false
  end.

(** Truthiness of a number: [0] and NaN are falsy. *)
Definition truthy (a : number) : bool :=
  match a with
  | Fin x => negb (Qeq_bool x 0)
  | PInf | NInf => true
  | NaN => false
  end.

Definition is_infinite (a : number) : bool :=
  match a with
  | PInf | NInf => true
  | _ => false
  end.

(** [a || d] for an optional number: [undefined], [0] and NaN give [d]. *)
Definition or_default (a : option number) (d : number) : number :=
  match a with
  | Some x => if truthy x then x else d
  | None => d
  end.

End JS.

Import JS.

(** ** Vectors *)
Module Vector.

(** Modelled from the spec: module [math/vector] is not in src.  A vector is
    the pair of its components [v[0]] and [v[1]]. *)
Definition vector : Type := (number * number)%type.

(** Modelled from the spec: [Vector.add] of [math/vector], componentwise. *)
Definition add (a b : vector) : vector :=
  (JS.add (fst a) (fst b), JS.add (snd a) (snd b)).

(** Modelled from the spec: [Vector.sub] of [math/vector], componentwise. *)
Definition sub (a b : vector) : vector :=
  (JS.sub (fst a) (fst b), JS.sub (snd a) (snd b)).

(** [Vector.len] of [math/vector] takes a square root, which the rationals
    do not have: it is an operation the development is parametric in. *)
Class Len := len : vector -> number.

End Vector.

Import Vector.

(** [calcStandardDeviation] of [util/util], not in src: a parameter. *)
Class StdDev := calcStandardDeviation : list number -> number.

(** ** The visual proxy of a body *)
Module Shape.

(** Modelled from the spec: class [Shape] of [shape/BaseShape] is not in src.
    The proxy carries the attributes the body reads and writes through
    [attr]: its id, [x], [y], [rotate] and [center]. *)
Record t : Type := mk {
  _id : positive;
  _x : number;
  _y : number;
  _rotate : number;
  _center : vector
}.

(** The shape configuration fields the constructors read. *)
Record shapeConfig : Type := mkConfig {
  pin : vector;
  rotate : option number
}.

(** [new Circle(config)], from [shape/circle.ts] and the base constructor:
    [_x = pin[0]], [_y = pin[1]], [_rotate = config.rotate || 0],
    [_center = [_x, _y]].  [sym] is the fresh [Symbol()]. *)
Definition new (sym : positive) (config : shapeConfig) : t :=
  {| _id := sym;
     _x := fst (pin config);
     _y := snd (pin config);
     _rotate := or_default (rotate config) (num 0);
     _center := (fst (pin config), snd (pin config)) |}.

(** Modelled from the spec: [attr('x', v)] stores [v] in the attribute. *)
Definition attr_x (v : number) (s : t) : t :=
  {| _id := _id s; _x := v; _y := _y s; _rotate := _rotate s;
     _center := _center s |}.

(** Modelled from the spec: [attr('y', v)] stores [v] in the attribute. *)
Definition attr_y (v : number) (s : t) : t :=
  {| _id := _id s; _x := _x s; _y := v; _rotate := _rotate s;
     _center := _center s |}.

(** Modelled from the spec: [attr('rotate', v)] stores [v] in the
    attribute. *)
Definition attr_rotate (v : number) (s : t) : t :=
  {| _id := _id s; _x := _x s; _y := _y s; _rotate := v;
     _center := _center s |}.

End Shape.

(** ** Bounding boxes *)
Module BoundRect.

(** Modelled from the spec: class [BoundRect] of [collision/boundRect] is not
    in src; an AABB is [(min, max)]. *)
Record t : Type := mk { min : vector; max : vector }.

End BoundRect.

(** [enum staticType] *)
Module staticType.
Inductive t : Type := none | position | total.
End staticType.

(** [enum state] *)
Module state.
Inductive t : Type := init | simulate | sleep.
End state.

(** [class Nature]: every field may be left out of the object literal. *)
Module Nature.
Record t : Type := mk {
  mass : option number;
  static : option string;
  linearVelocity : option vector;
  angularVelocity : option number;
  friction : option number;
  restitution : option number
}.
End Nature.

(** [class BodyConfig]; the two callbacks play no part in the physical
    data and are left out. *)
Module BodyConfig.
Record t : Type := mk {
  shape : Shape.shapeConfig;
  nature : option Nature.t
}.
End BodyConfig.

(** ** [class Body] *)
Module Body.

Record t : Type := mk {
  id : positive;
  shape : Shape.t;
  boundRect : option BoundRect.t;
  state : state.t;
  isCollide : bool;
  linearVel : vector;
  angularVel : number;
  linearAcc : vector;
  angularAcc : number;
  pos : vector;
  rot : number;
  mass : number;
  inverseMass : number;
  friction : number;
  restitution : number;
  area : number;
  density : number;
  centroid : vector;
  rotationInertia : number;
  torque : number;
  static : staticType.t;
  curMotion : number;
  frameMotionListIn10 : list number
}.

(** Field assignments [this.f = v]. *)

Definition set_shape (v : Shape.t) (b : t) : t :=
  {| id := id b; shape := v; boundRect := boundRect b; state := state b;
     isCollide := isCollide b; linearVel := linearVel b;
     angularVel := angularVel b; linearAcc := linearAcc b;
     angularAcc := angularAcc b; pos := pos b; rot := rot b; mass := mass b;
     inverseMass := inverseMass b; friction := friction b;
     restitution := restitution b; area := area b; density := density b;
     centroid := centroid b; rotationInertia := rotationInertia b;
     torque := torque b; static := static b; curMotion := curMotion b;
     frameMotionListIn10 := frameMotionListIn10 b |}.

Definition set_boundRect (v : option BoundRect.t) (b : t) : t :=
  {| id := id b; shape := shape b; boundRect := v; state := state b;
     isCollide := isCollide b; linearVel := linearVel b;
     angularVel := angularVel b; linearAcc := linearAcc b;
     angularAcc := angularAcc b; pos := pos b; rot := rot b; mass := mass b;
     inverseMass := inverseMass b; friction := friction b;
     restitution := restitution b; area := area b; density := density b;
     centroid := centroid b; rotationInertia := rotationInertia b;
     torque := torque b; static := static b; curMotion := curMotion b;
     frameMotionListIn10 := frameMotionListIn10 b |}.

Definition set_state (v : state.t) (b : t) : t :=
  {| id := id b; shape := shape b; boundRect := boundRect b; state := v;
     isCollide := isCollide b; linearVel := linearVel b;
     angularVel := angularVel b; linearAcc := linearAcc b;
     angularAcc := angularAcc b; pos := pos b; rot := rot b; mass := mass b;
     inverseMass := inverseMass b; friction := friction b;
     restitution := restitution b; area := area b; density := density b;
     centroid := centroid b; rotationInertia := rotationInertia b;
     torque := torque b; static := static b; curMotion := curMotion b;
     frameMotionListIn10 := frameMotionListIn10 b |}.

Definition set_linearVel (v : vector) (b : t) : t :=
  {| id := id b; shape := shape b; boundRect := boundRect b;
     state := state b; isCollide := isCollide b; linearVel := v;
     angularVel := angularVel b; linearAcc := linearAcc b;
     angularAcc := angularAcc b; pos := pos b; rot := rot b; mass := mass b;
     inverseMass := inverseMass b; friction := friction b;
     restitution := restitution b; area := area b; density := density b;
     centroid := centroid b; rotationInertia := rotationInertia b;
     torque := torque b; static := static b; curMotion := curMotion b;
     frameMotionListIn10 := frameMotionListIn10 b |}.

Definition set_angularVel (v : number) (b : t) : t :=
  {| id := id b; shape := shape b; boundRect := boundRect b;
     state := state b; isCollide := isCollide b; linearVel := linearVel b;
     angularVel := v; linearAcc := linearAcc b; angularAcc := angularAcc b;
     pos := pos b; rot := rot b; mass := mass b;
     inverseMass := inverseMass b; friction := friction b;
     restitution := restitution b; area := area b; density := density b;
     centroid := centroid b; rotationInertia := rotationInertia b;
     torque := torque b; static := static b; curMotion := curMotion b;
     frameMotionListIn10 := frameMotionListIn10 b |}.

Definition set_pos (v : vector) (b : t) : t :=
  {| id := id b; shape := shape b; boundRect := boundRect b;
     state := state b; isCollide := isCollide b; linearVel := linearVel b;
     angularVel := angularVel b; linearAcc := linearAcc b;
     angularAcc := angularAcc b; pos := v; rot := rot b; mass := mass b;
     inverseMass := inverseMass b; friction := friction b;
     restitution := restitution b; area := area b; density := density b;
     centroid := centroid b; rotationInertia := rotationInertia b;
     torque := torque b; static := static b; curMotion := curMotion b;
     frameMotionListIn10 := frameMotionListIn10 b |}.

Definition set_rot (v : number) (b : t) : t :=
  {| id := id b; shape := shape b; boundRect := boundRect b;
     state := state b; isCollide := isCollide b; linearVel := linearVel b;
     angularVel := angularVel b; linearAcc := linearAcc b;
     angularAcc := angularAcc b; pos := pos b; rot := v; mass := mass b;
     inverseMass := inverseMass b; friction := friction b;
     restitution := restitution b; area := area b; density := density b;
     centroid := centroid b; rotationInertia := rotationInertia b;
     torque := torque b; static := static b; curMotion := curMotion b;
     frameMotionListIn10 := frameMotionListIn10 b |}.

Definition set_mass (v : number) (b : t) : t :=
  {| id := id b; shape := shape b; boundRect := boundRect b;
     state := state b; isCollide := isCollide b; linearVel := linearVel b;
     angularVel := angularVel b; linearAcc := linearAcc b;
     angularAcc := angularAcc b; pos := pos b; rot := rot b; mass := v;
     inverseMass := inverseMass b; friction := friction b;
     restitution := restitution b; area := area b; density := density b;
     centroid := centroid b; rotationInertia := rotationInertia b;
     torque := torque b; static := static b; curMotion := curMotion b;
     frameMotionListIn10 := frameMotionListIn10 b |}.

Definition set_inverseMass (v : number) (b : t) : t :=
  {| id := id b; shape := shape b; boundRect := boundRect b;
     state := state b; isCollide := isCollide b; linearVel := linearVel b;
     angularVel := angularVel b; linearAcc := linearAcc b;
     angularAcc := angularAcc b; pos := pos b; rot := rot b; mass := mass b;
     inverseMass := v; friction := friction b; restitution := restitution b;
     area := area b; density := density b; centroid := centroid b;
     rotationInertia := rotationInertia b; torque := torque b;
     static := static b; curMotion := curMotion b;
     frameMotionListIn10 := frameMotionListIn10 b |}.

Definition set_area (v : number) (b : t) : t :=
  {| id := id b; shape := shape b; boundRect := boundRect b;
     state := state b; isCollide := isCollide b; linearVel := linearVel b;
     angularVel := angularVel b; linearAcc := linearAcc b;
     angularAcc := angularAcc b; pos := pos b; rot := rot b; mass := mass b;
     inverseMass := inverseMass b; friction := friction b;
     restitution := restitution b; area := v; density := density b;
     centroid := centroid b; rotationInertia := rotationInertia b;
     torque := torque b; static := static b; curMotion := curMotion b;
     frameMotionListIn10 := frameMotionListIn10 b |}.

Definition set_density (v : number) (b : t) : t :=
  {| id := id b; shape := shape b; boundRect := boundRect b;
     state := state b; isCollide := isCollide b; linearVel := linearVel b;
     angularVel := angularVel b; linearAcc := linearAcc b;
     angularAcc := angularAcc b; pos := pos b; rot := rot b; mass := mass b;
     inverseMass := inverseMass b; friction := friction b;
     restitution := restitution b; area := area b; density := v;
     centroid := centroid b; rotationInertia := rotationInertia b;
     torque := torque b; static := static b; curMotion := curMotion b;
     frameMotionListIn10 := frameMotionListIn10 b |}.

Definition set_centroid (v : vector) (b : t) : t :=
  {| id := id b; shape := shape b; boundRect := boundRect b;
     state := state b; isCollide := isCollide b; linearVel := linearVel b;
     angularVel := angularVel b; linearAcc := linearAcc b;
     angularAcc := angularAcc b; pos := pos b; rot := rot b; mass := mass b;
     inverseMass := inverseMass b; friction := friction b;
     restitution := restitution b; area := area b; density := density b;
     centroid := v; rotationInertia := rotationInertia b; torque := torque b;
     static := static b; curMotion := curMotion b;
     frameMotionListIn10 := frameMotionListIn10 b |}.

Definition set_rotationInertia (v : number) (b : t) : t :=
  {| id := id b; shape := shape b; boundRect := boundRect b;
     state := state b; isCollide := isCollide b; linearVel := linearVel b;
     angularVel := angularVel b; linearAcc := linearAcc b;
     angularAcc := angularAcc b; pos := pos b; rot := rot b; mass := mass b;
     inverseMass := inverseMass b; friction := friction b;
     restitution := restitution b; area := area b; density := density b;
     centroid := centroid b; rotationInertia := v; torque := torque b;
     static := static b; curMotion := curMotion b;
     frameMotionListIn10 := frameMotionListIn10 b |}.

Definition set_frameMotionListIn10 (v : list number) (b : t) : t :=
  {| id := id b; shape := shape b; boundRect := boundRect b;
     state := state b; isCollide := isCollide b; linearVel := linearVel b;
     angularVel := angularVel b; linearAcc := linearAcc b;
     angularAcc := angularAcc b; pos := pos b; rot := rot b; mass := mass b;
     inverseMass := inverseMass b; friction := friction b;
     restitution := restitution b; area := area b; density := density b;
     centroid := centroid b; rotationInertia := rotationInertia b;
     torque := torque b; static := static b; curMotion := curMotion b;
     frameMotionListIn10 := v |}.

(** The argument of [updateBoundRect]: [{type: 'pos', val}] or
    [{type: 'rot', val}]. *)
Inductive updateInfo : Type :=
  | UpdPos (val : vector)
  | UpdRot (val : number).

(** The methods the base class leaves to its subclasses (there they
    [throw]).  An override reads the body; [updateBoundRect] gives the new
    value of the [boundRect] field and writes no other field of the base
    class. *)
Class Kind := {
  calcArea : t -> number;
  calcDensity : t -> number;
  calcCentroid : t -> vector;
  calcRotationInertia : t -> number;
  updateBoundRect : updateInfo -> t -> option BoundRect.t
}.

(** [opt.nature.static] through the [if] and the [switch]. *)
Definition static_of (s : option string) : staticType.t :=
  match s with
  | Some str =>
      if String.eqb str "" then staticType.none
      else if String.eqb str "none" then staticType.none
      else if String.eqb str "position" then staticType.position
      else if String.eqb str "total" then staticType.total
      else staticType.none
  | None => staticType.none
  end.

(** [a || d] for an optional array: an array is always truthy. *)
Definition or_default_vec (a : option vector) (d : vector) : vector :=
  match a with
  | Some v => v
  | None => d
  end.

(** [initPhysicalData(opt)], on the body whose [shape] and [id] the
    constructor has set. *)
Definition initPhysicalData (sh : Shape.t) (opt : BodyConfig.t) : t :=
  let b0 :=
    {| id := Shape._id sh; shape := sh; boundRect := None;
       pos := Shape._center sh;
       rot := Shape._rotate sh;
       linearAcc := (num 0, num 0);
       linearVel := (num 0, num 0);
       angularVel := num 0;
       angularAcc := num 0;
       mass := num 0;
       inverseMass := num (-1);
       friction := num 0;
       restitution := Fin (9 # 10);
       area := num 0;
       density := Fin (1 # 100);
       centroid := (num 0, num 0);
       rotationInertia := num 0;
       torque := num 0;
       static := staticType.none;
       state := state.init;
       isCollide := false;
       curMotion := num 0;
       frameMotionListIn10 := [] |} in
  match BodyConfig.nature opt with
  | Some n =>
      {| id := id b0; shape := shape b0; boundRect := boundRect b0;
         pos := pos b0; rot := rot b0;
         linearAcc := linearAcc b0;
         linearVel := or_default_vec (Nature.linearVelocity n) (linearVel b0);
         angularVel := or_default (Nature.angularVelocity n) (angularVel b0);
         angularAcc := angularAcc b0;
         mass := or_default (Nature.mass n) (mass b0);
         inverseMass := inverseMass b0;
         friction := or_default (Nature.friction n) (friction b0);
         restitution := or_default (Nature.restitution n) (restitution b0);
         area := area b0; density := density b0; centroid := centroid b0;
         rotationInertia := rotationInertia b0; torque := torque b0;
         static := static_of (Nature.static n);
         state := state b0; isCollide := isCollide b0;
         curMotion := curMotion b0;
         frameMotionListIn10 := frameMotionListIn10 b0 |}
  | None => b0
  end.

(** [new Body(opt, type)] *)
Definition new (sym : positive) (opt : BodyConfig.t) : t :=
  initPhysicalData (Shape.new sym (BodyConfig.shape opt)) opt.

Section Methods.
Context {K : Kind}.

(** [setMassData()] *)
Definition setMassData (b : t) : t :=
  let b := set_area (calcArea b) b in
  let b :=
    if negb (eqb (mass b) (num 0))
    then set_density (calcDensity b) b
    else set_mass (mul (area b) (density b)) b in
  let b := set_centroid (calcCentroid b) b in
  let b := set_rotationInertia (calcRotationInertia b) b in
  match static b with
  | staticType.position | staticType.total => set_inverseMass (num 0) b
  | staticType.none => set_inverseMass (div (num 1) (mass b)) b
  end.

(** [setPos(pos)] *)
Definition setPos (p : vector) (b : t) : t :=
  let shapeX := Shape._x (shape b) in
  let shapeY := Shape._y (shape b) in
  let dPos := Vector.sub p (pos b) in
  let b := set_pos p b in
  let b := set_boundRect (updateBoundRect (UpdPos dPos) b) b in
  set_shape
    (Shape.attr_y (JS.add shapeY (snd dPos))
       (Shape.attr_x (JS.add shapeX (fst dPos)) (shape b))) b.

(** [setRotation(deg)] *)
Definition setRotation (deg : number) (b : t) : t :=
  let dDeg := JS.sub deg (rot b) in
  let b := set_rot deg b in
  let b := set_boundRect (updateBoundRect (UpdRot dDeg) b) b in
  set_shape (Shape.attr_rotate deg (shape b)) b.

(** [integratePosition()] *)
Definition integratePosition (b : t) : t :=
  let b := set_linearVel (Vector.add (linearVel b) (linearAcc b)) b in
  setPos (Vector.add (linearVel b) (pos b)) b.

(** [integrateRotation()] *)
Definition integrateRotation (b : t) : t :=
  let b := set_angularVel (JS.add (angularVel b) (angularAcc b)) b in
  let b :=
    if geb (rot b) (num 360) then set_rot (rem (rot b) (num 360)) b else b in
  setRotation (JS.add (rot b) (angularVel b)) b.

End Methods.

(** [isTimeToSleep(lv, av)] *)
Definition isTimeToSleep {L : Vector.Len} {D : StdDev}
    (lv : vector) (av : number) (b : t) : t :=
  let motion := JS.add (mul (len lv) (len lv)) (mul av av) in
  let b :=
    if (20 <=? length (frameMotionListIn10 b))%nat
    then set_frameMotionListIn10 (tl (frameMotionListIn10 b)) b
    else b in
  let b := set_frameMotionListIn10 (frameMotionListIn10 b ++ [motion]) b in
  if (length (frameMotionListIn10 b) =? 20)%nat
  then
    let s := calcStandardDeviation (frameMotionListIn10 b) in
    if ltb s (num 500)
    then set_state state.sleep b
    else set_state state.simulate b
  else b.

End Body.

(** ** The layer manager of the renderer *)

(** The part of the container [HTMLElement] the manager reads. *)
Module HTMLElement.
Record t : Type := mk { offsetWidth : Z; offsetHeight : Z }.
End HTMLElement.

Module Layer.

(** Modelled from the spec: class [Layer] of [render/layer] is not in src; a
    layer is the list of the shapes appended to it. *)
Record t : Type := mk { zIndex : Z; shapes : list Shape.t }.

(** Modelled from the spec: [new Layer(zIndex, ...)], an empty layer. *)
Definition new (z : Z) : t := {| zIndex := z; shapes := [] |}.

(** Modelled from the spec: [getCount()], the number of shapes of the
    layer. *)
Definition getCount (l : t) : Z := Z.of_nat (length (shapes l)).

(** Modelled from the spec: [append(shape)]. *)
Definition append (s : Shape.t) (l : t) : t :=
  {| zIndex := zIndex l; shapes := shapes l ++ [s] |}.

(** Modelled from the spec: [clear()] drops the shapes of the layer. *)
Definition clear (l : t) : t := {| zIndex := zIndex l; shapes := [] |}.

End Layer.

(** [class LayerManager].  The keys of [layerMap] are the integer z-indices
    (the key ['0'] is [0]); the canvas elements and the broadcast listeners
    are outside the model. *)
Module LayerManager.

Record t : Type := mk {
  container : HTMLElement.t;
  containerSize : Z * Z;
  defaultZIndex : Z;
  layerMap : gmap Z Layer.t;
  totalShapeCount : Z
}.

Definition set_layerMap (m : gmap Z Layer.t) (lm : t) : t :=
  {| container := container lm; containerSize := containerSize lm;
     defaultZIndex := defaultZIndex lm; layerMap := m;
     totalShapeCount := totalShapeCount lm |}.

Definition set_totalShapeCount (n : Z) (lm : t) : t :=
  {| container := container lm; containerSize := containerSize lm;
     defaultZIndex := defaultZIndex lm; layerMap := layerMap lm;
     totalShapeCount := n |}.

(** [new LayerManager(containerEle)] *)
Definition new (containerEle : HTMLElement.t) : t :=
  {| defaultZIndex := 100;
     totalShapeCount := 0;
     container := containerEle;
     containerSize := (HTMLElement.offsetWidth containerEle,
                       HTMLElement.offsetHeight containerEle);
     layerMap := ∅ |}.

(** [createLayer(zIndex)] *)
Definition createLayer (z : Z) (lm : t) : t :=
  set_layerMap (<[z := Layer.new z]> (layerMap lm)) lm.

(** [getHeight()]: [containerSize[0]]. *)
Definition getHeight (lm : t) : Z := fst (containerSize lm).

(** [getWidth()]: [containerSize[1]]. *)
Definition getWidth (lm : t) : Z := snd (containerSize lm).

(** The sum the [for ... in] loop of [getTotalCount] adds onto [start]. *)
Definition addCounts (start : Z) (m : gmap Z Layer.t) : Z :=
  map_fold (fun _ l acc => acc + Layer.getCount l) start m.

(** [getTotalCount()]: the returned value and the manager afterwards. *)
Definition getTotalCount (lm : t) : Z * t :=
  let total := addCounts (totalShapeCount lm) (layerMap lm) in
  (total, set_totalShapeCount total lm).

(** The manager after [n] calls of [getTotalCount()] in a row. *)
Definition after_calls (n : nat) (lm : t) : t :=
  Nat.iter n (fun lm => snd (getTotalCount lm)) lm.

(** [append(appendInfo)] with [appendInfo = {zIndex: z, shape: s}]. *)
Definition append (z : Z) (s : Shape.t) (lm : t) : t :=
  let lm :=
    match layerMap lm !! z with
    | None => createLayer z lm
    | Some _ => lm
    end in
  set_layerMap (alter (Layer.append s) z (layerMap lm)) lm.

(** [destroyLayer(zIndex)] *)
Definition destroyLayer (z : Z) (lm : t) : t :=
  set_layerMap (delete z (layerMap lm)) lm.

(** One round of the loop of [clear]. *)
Definition clear_step (z : Z) (_ : Layer.t) (lm : t) : t :=
  let lm := set_layerMap (alter Layer.clear z (layerMap lm)) lm in
  if decide (z = 0) then lm else destroyLayer z lm.

(** [clear()]: the loop runs over the keys the map has when it starts. *)
Definition clear (lm : t) : t := map_fold clear_step lm (layerMap lm).

(** [remove(removeInfo)] with [removeInfo = {zIndex: z, shape: s}].
    [Layer.remove] is not in src and [layer_remove] stands for it.  [None]
    is the [TypeError] of calling a method on [layerMap[z]] when that is
    [undefined]. *)
Definition remove (layer_remove : Shape.t -> Layer.t -> Layer.t)
    (z : Z) (s : Shape.t) (lm : t) : option t :=
  match layerMap lm !! z with
  | None => None
  | Some l =>
      let lm := set_layerMap (<[z := layer_remove s l]> (layerMap lm)) lm in
      if Layer.getCount (layer_remove s l) =? 0
      then Some (destroyLayer z lm)
      else Some lm
  end.

(** A call of [append] or [remove]. *)
Inductive edit : Type :=
  | Append (z : Z) (s : Shape.t)
  | Remove (z : Z) (s : Shape.t).

(** The calls [es] one after the other; [None] once one of them throws. *)
Fixpoint run_edits (layer_remove : Shape.t -> Layer.t -> Layer.t)
    (es : list edit) (lm : t) : option t :=
  match es with
  | [] => Some lm
  | Append z s :: es => run_edits layer_remove es (append z s lm)
  | Remove z s :: es =>
      match remove layer_remove z s lm with
      | Some lm' => run_edits layer_remove es lm'
      | None => None
      end
  end.

(** Every layer of the map holds a shape. *)
Definition no_empty_layer (lm : t) : Prop :=
  map_Forall (fun _ l => Layer.getCount l <> 0) (layerMap lm).

End LayerManager.

(** ** The world *)

Module RendererCreator.

(** Modelled from the spec: class [RendererCreator] of [render/core] is not
    in src; the renderer is its layer manager. *)
Record t : Type := mk { layerManager : LayerManager.t }.

(** Modelled from the spec: [new RendererCreator(containerEle, opt)]. *)
Definition new (containerEle : HTMLElement.t) : t :=
  {| layerManager := LayerManager.new containerEle |}.

(** Modelled from the spec: [getWidth()] is the layer manager's. *)
Definition getWidth (r : t) : Z := LayerManager.getWidth (layerManager r).

(** Modelled from the spec: [getHeight()] is the layer manager's. *)
Definition getHeight (r : t) : Z := LayerManager.getHeight (layerManager r).

(** Modelled from the spec: [clear()] clears the layer manager. *)
Definition clear (r : t) : t :=
  {| layerManager := LayerManager.clear (layerManager r) |}.

End RendererCreator.

Module BodyHeap.

(** Modelled from the spec: class [BodyHeap] is not in src; the heap is the
    sequence of the live bodies. *)
Record t : Type := mk { heap : list Body.t }.

(** Modelled from the spec: [new BodyHeap()]. *)
Definition new : t := {| heap := [] |}.

(** Modelled from the spec: [clear()] removes all. *)
Definition clear (h : t) : t := {| heap := [] |}.

End BodyHeap.

(** Modelled from the spec: the four boundary classes of
    [boundary/Boundary], not in src. *)
Inductive Boundary : Type :=
  | BoundaryTop
  | BoundaryRight
  | BoundaryBottom
  | BoundaryLeft.

Module BoundariesManager.

(** Modelled from the spec: class [BoundariesManager] of [boundary/core] is
    not in src; it holds the viewport size and the boundaries added. *)
Record t : Type := mk { size : Z * Z; boundaries : list Boundary }.

(** Modelled from the spec: [new BoundariesManager([width, height])]. *)
Definition new (sz : Z * Z) : t := {| size := sz; boundaries := [] |}.

(** Modelled from the spec: [add(boundary)]. *)
Definition add (bd : Boundary) (m : t) : t :=
  {| size := size m; boundaries := boundaries m ++ [bd] |}.

End BoundariesManager.

(** [class WorldCreator]: the renderer, the body heap and the boundary
    manager.  The collision manager, the motion driver and the forces are
    outside the model. *)
Module WorldCreator.

Record t : Type := mk {
  Renderer : RendererCreator.t;
  bodyHeap : BodyHeap.t;
  boundariesManager : BoundariesManager.t
}.

(** [getWidth()] *)
Definition getWidth (w : t) : Z := RendererCreator.getWidth (Renderer w).

(** [getHeight()] *)
Definition getHeight (w : t) : Z := RendererCreator.getHeight (Renderer w).

(** [new WorldCreator(containerEle, opt)] *)
Definition new (containerEle : HTMLElement.t) : t :=
  let r := RendererCreator.new containerEle in
  {| Renderer := r;
     bodyHeap := BodyHeap.new;
     boundariesManager :=
       BoundariesManager.new
         (RendererCreator.getWidth r, RendererCreator.getHeight r) |}.

(** [clear()] *)
Definition clear (w : t) : t :=
  {| Renderer := RendererCreator.clear (Renderer w);
     bodyHeap := BodyHeap.clear (bodyHeap w);
     boundariesManager := boundariesManager w |}.

(** What [append] and [remove] are given: a body or a boundary
    ([body instanceof Boundary]). *)
Inductive BodyType : Type :=
  | IsBody (b : Body.t)
  | IsBoundary (bd : Boundary).

(** The methods of the renderer, the body heap and the boundary manager
    that [append] and [remove] call; none of the three classes is in
    src. *)
Class Parts := {
  Renderer_append : Shape.t -> RendererCreator.t -> RendererCreator.t;
  Renderer_remove : Shape.t -> RendererCreator.t -> RendererCreator.t;
  bodyHeap_append : Body.t -> BodyHeap.t -> BodyHeap.t;
  bodyHeap_remove : positive -> BodyHeap.t -> BodyHeap.t;
  boundariesManager_add :
    Boundary -> BoundariesManager.t -> BoundariesManager.t;
  boundariesManager_remove :
    Boundary -> BoundariesManager.t -> BoundariesManager.t
}.

Section AppendRemove.
Context {P : Parts}.

(** [append(body)] for a [body] that is not an array. *)
Definition append_one (body : BodyType) (w : t) : t :=
  match body with
  | IsBoundary bd =>
      {| Renderer := Renderer w; bodyHeap := bodyHeap w;
         boundariesManager :=
           boundariesManager_add bd (boundariesManager w) |}
  | IsBody b =>
      {| Renderer := Renderer_append (Body.shape b) (Renderer w);
         bodyHeap := bodyHeap_append b (bodyHeap w);
         boundariesManager := boundariesManager w |}
  end.

(** [append(body)]: an array is appended item by item, in order. *)
Definition append (body : BodyType + list BodyType) (w : t) : t :=
  match body with
  | inl one => append_one one w
  | inr items => fold_left (fun w item => append_one item w) items w
  end.

(** [remove(body)] *)
Definition remove (body : BodyType) (w : t) : t :=
  match body with
  | IsBoundary bd =>
      {| Renderer := Renderer w; bodyHeap := bodyHeap w;
         boundariesManager :=
           boundariesManager_remove bd (boundariesManager w) |}
  | IsBody b =>
      {| Renderer := Renderer_remove (Body.shape b) (Renderer w);
         bodyHeap := bodyHeap_remove (Body.id b) (bodyHeap w);
         boundariesManager := boundariesManager w |}
  end.

End AppendRemove.

(** [class WorldConfig]; a field left out of the object literal is
    [None]. *)
Record WorldConfig : Type := mkConfig {
  gravity : option vector;
  linearDrag : option vector;
  angularDrag : option number
}.

(** [this.opt] once [initGlobalForce] has filled it in. *)
Record Opt : Type := mkOpt {
  opt_gravity : vector;
  opt_linearDrag : vector;
  opt_angularDrag : number
}.

(** [initGlobalForce(opt)]: the [this.opt] it leaves, whose three fields
    are what the three force generators are built from. *)
Definition initGlobalForce (opt : WorldConfig) : Opt :=
  {| opt_gravity := Body.or_default_vec (gravity opt) (num 0, num 5);
     opt_linearDrag :=
       Body.or_default_vec (linearDrag opt) (Fin (1 # 5), num 0);
     opt_angularDrag := or_default (angularDrag opt) (Fin (3 # 20)) |}.

(** [setGlobalForce(opt)]: [Object.assign(this.opt, opt)] overwrites the
    fields [opt] has; the result is what the generators are then set to. *)
Definition setGlobalForce (opt : WorldConfig) (o : Opt) : Opt :=
  {| opt_gravity := Body.or_default_vec (gravity opt) (opt_gravity o);
     opt_linearDrag := Body.or_default_vec (linearDrag opt) (opt_linearDrag o);
     opt_angularDrag :=
       match angularDrag opt with
       | Some a => a
       | None => opt_angularDrag o
       end |}.


(** [body instanceof Boundary] *)
Definition is_boundary (body : BodyType) : bool :=
  match body with
  | IsBoundary _ => true
  | IsBody _ => false
  end.

End WorldCreator.

(** ** Finite values *)

(** The number [a] is finite and equal to the rational [q]. *)
Definition is_fin (a : number) (q : Q) : Prop :=
  match a with
  | Fin x => (x == q)%Q
  | _ => False
  end.


Definition finite (a : number) : Prop :=
  match a with
  | Fin _ => True
  | _ => False
  end.








(** The sample [isTimeToSleep(lv, av)] pushes. *)
Definition motion {L : Vector.Len} (c : vector * number) : number :=
  JS.add (mul (len (fst c)) (len (fst c))) (mul (snd c) (snd c)).

(** The calls [isTimeToSleep(lv, av)] for the pairs of [cs], in order. *)
Definition sleep_calls {L : Vector.Len} {D : StdDev}
    (cs : list (vector * number)) (b : Body.t) : Body.t :=
  fold_left (fun b c => Body.isTimeToSleep (fst c) (snd c) b) cs b.

(** The last [n] entries of a list. *)
Definition last_n {A : Type} (n : nat) (l : list A) : list A :=
  skipn (length l - n) l.

(** ** [class base] and [class shape] of the unnamed source file *)
Module shape.

(** What a method does besides changing the shape: [broadcast.notify()],
    or a call of the hook function [h]. *)
Inductive event : Type :=
  | Notify
  | Call (h : nat).

(** [class shapeConfig], with the fields the constructors read; a hook is
    the name of the function given, [None] when left out. *)
Record shapeConfig : Type := mkConfig {
  pin : vector;
  color : option string;
  fill : option bool;
  rotate : option number;
  mounted : option nat;
  removed : option nat
}.

Record t : Type := mk {
  _id : positive;
  _type : string;
  _isShow : bool;
  _isMount : bool;
  _mounted : option nat;
  _removed : option nat;
  count : Z;
  _x : number;
  _y : number;
  _color : option string;
  _fill : bool;
  _rotate : number
}.

(** [new shape(config, type)], with [sym] the fresh [Symbol()]. *)
Definition new (sym : positive) (config : shapeConfig) (type : string) : t :=
  {| _id := sym;
     _type := type;
     _isShow := true;
     _isMount := false;
     count := 1;
     _mounted := mounted config;
     _removed := removed config;
     _x := fst (pin config);
     _y := snd (pin config);
     _color := color config;
     _fill := match fill config with Some f => f | None => true end;
     _rotate := or_default (rotate config) (num 0) |}.

(** What an accessor called as [f()] or [f(v)] returns: the value read, or
    [this] after the write together with what the write set off. *)
Inductive ret (A : Type) : Type :=
  | Got (v : A)
  | Self (s : t) (evs : list event).
Arguments Got {A} v.
Arguments Self {A} s evs.

(** [this._isMount && broadcast.notify()] *)
Definition notify (s : t) : list event :=
  if _isMount s then [Notify] else [].

(** [id()] *)
Definition id (s : t) : positive := _id s.

(** [type()] *)
Definition type (s : t) : string := _type s.

(** [getCount()] *)
Definition getCount (s : t) : Z := count s.

(** [mounted()] *)
Definition run_mounted (s : t) : list event :=
  match _mounted s with Some h => [Call h] | None => [] end.

(** [removed()] *)
Definition run_removed (s : t) : list event :=
  match _removed s with Some h => [Call h] | None => [] end.

(** The test [type() === 'group' || type() === 'composite']. *)
Definition is_container (s : t) : bool :=
  String.eqb (_type s) "group" || String.eqb (_type s) "composite".

(** [show(isShow?)].  On a group or composite the setter walks
    [getShapeList()] with [DFS], which is not in src: [None]. *)
Definition show (isShow : option bool) (s : t) : option (ret bool) :=
  match isShow with
  | Some v =>
      if is_container s then None
      else
        Some (Self {| _id := _id s; _type := _type s; _isShow := v;
                      _isMount := _isMount s; _mounted := _mounted s;
                      _removed := _removed s; count := count s; _x := _x s;
                      _y := _y s; _color := _color s; _fill := _fill s;
                      _rotate := _rotate s |} (notify s))
  | None => Some (Got (_isShow s))
  end.

(** [isMount(isMount?)]: the setter runs the hook of the new state.  On a
    group or composite it then walks [getShapeList()] with [DFS], which is
    not in src: [None]. *)
Definition isMount (arg : option bool) (s : t) : option (ret bool) :=
  match arg with
  | Some v =>
      let s' :=
        {| _id := _id s; _type := _type s; _isShow := _isShow s;
           _isMount := v; _mounted := _mounted s; _removed := _removed s;
           count := count s; _x := _x s; _y := _y s; _color := _color s;
           _fill := _fill s; _rotate := _rotate s |} in
      if is_container s then None
      else Some (Self s' (if v then run_mounted s' else run_removed s'))
  | None => Some (Got (_isMount s))
  end.

(** [x(x?)] *)
Definition x (arg : option number) (s : t) : ret number :=
  match arg with
  | Some v =>
      Self {| _id := _id s; _type := _type s; _isShow := _isShow s;
              _isMount := _isMount s; _mounted := _mounted s;
              _removed := _removed s; count := count s; _x := v;
              _y := _y s; _color := _color s; _fill := _fill s;
              _rotate := _rotate s |} (notify s)
  | None => Got (_x s)
  end.

(** [y(y?)] *)
Definition y (arg : option number) (s : t) : ret number :=
  match arg with
  | Some v =>
      Self {| _id := _id s; _type := _type s; _isShow := _isShow s;
              _isMount := _isMount s; _mounted := _mounted s;
              _removed := _removed s; count := count s; _x := _x s;
              _y := v; _color := _color s; _fill := _fill s;
              _rotate := _rotate s |} (notify s)
  | None => Got (_y s)
  end.

(** [color(color?)] *)
Definition set_color (arg : option string) (s : t) : ret (option string) :=
  match arg with
  | Some v =>
      Self {| _id := _id s; _type := _type s; _isShow := _isShow s;
              _isMount := _isMount s; _mounted := _mounted s;
              _removed := _removed s; count := count s; _x := _x s;
              _y := _y s; _color := Some v; _fill := _fill s;
              _rotate := _rotate s |} (notify s)
  | None => Got (_color s)
  end.

(** [fill(fill?)] *)
Definition set_fill (arg : option bool) (s : t) : ret bool :=
  match arg with
  | Some v =>
      Self {| _id := _id s; _type := _type s; _isShow := _isShow s;
              _isMount := _isMount s; _mounted := _mounted s;
              _removed := _removed s; count := count s; _x := _x s;
              _y := _y s; _color := _color s; _fill := v;
              _rotate := _rotate s |} (notify s)
  | None => Got (_fill s)
  end.

(** [rotate(deg?)] *)
Definition set_rotate (arg : option number) (s : t) : ret number :=
  match arg with
  | Some v =>
      Self {| _id := _id s; _type := _type s; _isShow := _isShow s;
              _isMount := _isMount s; _mounted := _mounted s;
              _removed := _removed s; count := count s; _x := _x s;
              _y := _y s; _color := _color s; _fill := _fill s;
              _rotate := v |} (notify s)
  | None => Got (_rotate s)
  end.

(** [getBaseConfig()]; the object has no hooks. *)
Definition getBaseConfig (s : t) : shapeConfig :=
  {| pin := (_x s, _y s);
     color := _color s;
     fill := Some (_fill s);
     rotate := Some (_rotate s);
     mounted := None;
     removed := None |}.

(** A call of one of the accessors with an argument. *)
Inductive write : Type :=
  | WX (v : number)
  | WY (v : number)
  | WColor (v : string)
  | WFill (v : bool)
  | WRotate (v : number).

Definition call (w : write) (s : t) : ret unit :=
  let forget {A} (r : ret A) : ret unit :=
    match r with
    | Got _ => Got tt
    | Self s evs => Self s evs
    end in
  match w with
  | WX v => forget (x (Some v) s)
  | WY v => forget (y (Some v) s)
  | WColor v => forget (set_color (Some v) s)
  | WFill v => forget (set_fill (Some v) s)
  | WRotate v => forget (set_rotate (Some v) s)
  end.

(** A chain [s.f1(v1).f2(v2)...]: the shape at the end and all that the
    writes set off, in order. *)
Fixpoint chain (ws : list write) (s : t) : t * list event :=
  match ws with
  | [] => (s, [])
  | w :: ws =>
      match call w s with
      | Self s' evs =>
          let (s'', evs') := chain ws s' in (s'', evs ++ evs')
      | Got _ => (s, [])
      end
  end.

End shape.

(** ** Instances used to run the closed examples *)
Module Sample.

(** Square root on the rationals, rounded down on numerator and
    denominator: exact on the squares of rationals. *)
Definition sqrt (a : number) : number :=
  match a with
  | Fin q =>
      if Qle_bool 0 q
      then Fin (Qred (Z.sqrt (Qnum q) # Pos.sqrt (Qden q)))
      else NaN
  | PInf => PInf
  | _ => NaN
  end.

#[export] Instance len : Vector.Len :=
  fun v => sqrt (JS.add (mul (fst v) (fst v)) (mul (snd v) (snd v))).

Definition sum (l : list number) : number := fold_left JS.add l (num 0).

Definition mean (l : list number) : number :=
  div (sum l) (num (Z.of_nat (length l))).

#[export] Instance stdDev : StdDev :=
  fun l =>
    let m := mean l in
    sqrt (mean (map (fun x => mul (JS.sub x m) (JS.sub x m)) l)).

(** A box of 50 by 20 around its position. *)
#[export] Instance box : Body.Kind :=
  {| Body.calcArea := fun _ => num 1000;
     Body.calcDensity := fun b => div (Body.mass b) (Body.area b);
     Body.calcCentroid := fun b => Body.pos b;
     Body.calcRotationInertia :=
       fun b => div (mul (Body.mass b) (num 2900)) (num 12);
     Body.updateBoundRect :=
       fun info b =>
         match info, Body.boundRect b with
         | Body.UpdPos d, Some r =>
             Some {| BoundRect.min := Vector.add (BoundRect.min r) d;
                     BoundRect.max := Vector.add (BoundRect.max r) d |}
         | _, r => r
         end |}.

(** The body [new Body({shape: {pin, rotate}, nature}, ...)] with id 1. *)
Definition body (pin : vector) (rotate : option number)
    (nature : option Nature.t) : Body.t :=
  Body.new 1%positive
    {| BodyConfig.shape := {| Shape.pin := pin; Shape.rotate := rotate |};
       BodyConfig.nature := nature |}.

(** A nature literal with only [mass], [angularVelocity] and [restitution]
    possibly given. *)
Definition nature (mass angularVelocity restitution : option number)
    : Nature.t :=
  {| Nature.mass := mass; Nature.static := None;
     Nature.linearVelocity := None;
     Nature.angularVelocity := angularVelocity;
     Nature.friction := None; Nature.restitution := restitution |}.



(** A [Layer.remove] that drops the shapes with the id of [s]. *)
Definition layer_remove (s : Shape.t) (l : Layer.t) : Layer.t :=
  {| Layer.zIndex := Layer.zIndex l;
     Layer.shapes :=
       List.filter (fun s' => negb (Pos.eqb (Shape._id s') (Shape._id s)))
         (Layer.shapes l) |}.

(** A renderer that draws on layer 0, a heap and a boundary manager that
    keep lists. *)
#[export] Instance parts : WorldCreator.Parts :=
  {| WorldCreator.Renderer_append := fun s r =>
       {| RendererCreator.layerManager :=
            LayerManager.append 0 s (RendererCreator.layerManager r) |};
     WorldCreator.Renderer_remove := fun s r =>
       match LayerManager.remove layer_remove 0 s
               (RendererCreator.layerManager r) with
       | Some lm => {| RendererCreator.layerManager := lm |}
       | None => r
       end;
     WorldCreator.bodyHeap_append := fun b h =>
       {| BodyHeap.heap := BodyHeap.heap h ++ [b] |};
     WorldCreator.bodyHeap_remove := fun i h =>
       {| BodyHeap.heap :=
            List.filter (fun b => negb (Pos.eqb (Body.id b) i))
              (BodyHeap.heap h) |};
     WorldCreator.boundariesManager_add := BoundariesManager.add;
     WorldCreator.boundariesManager_remove := fun bd m =>
       {| BoundariesManager.size := BoundariesManager.size m;
          BoundariesManager.boundaries :=
            List.filter
              (fun bd' =>
                 match bd, bd' with
                 | BoundaryTop, BoundaryTop
                 | BoundaryRight, BoundaryRight
                 | BoundaryBottom, BoundaryBottom
                 | BoundaryLeft, BoundaryLeft => false
                 | _, _ => true
                 end)
              (BoundariesManager.boundaries m) |} |}.

End Sample.

(** * Properties *)

(** ** Numbers *)

Example div_by_zero :
  div (num 1) (num 0) = PInf /\ div (num (-1)) (num 0) = NInf /\
  div (num 0) (num 0) = NaN /\ div (num 1) PInf = num 0.
Proof. repeat split. Qed.

Example rem_sign_of_dividend :
  rem (num 370) (num 360) = num 10 /\ rem (num (-370)) (num 360) = num (-10) /\
  rem (Fin (7 # 2)) (num 2) = Fin (3 # 2) /\ rem (num 5) PInf = num 5.
Proof. repeat split. Qed.

Example compare_nan :
  eqb NaN NaN = false /\ ltb NaN (num 500) = false /\
  geb NaN (num 360) = false /\ truthy NaN = false.
Proof. repeat split. Qed.

Example static_of_strings :
  Body.static_of (Some "total"%string) = staticType.total /\
  Body.static_of (Some "position"%string) = staticType.position /\
  Body.static_of (Some "fixed"%string) = staticType.none /\
  Body.static_of None = staticType.none.
Proof. repeat split. Qed.

Lemma Qeq_bool_Qred_l (a b : Q) : Qeq_bool (Qred a) b = Qeq_bool a b.
Proof.
  destruct (Qeq_bool a b) eqn:E.
  - apply Qeq_bool_iff. rewrite Qred_correct. by apply Qeq_bool_iff.
  - apply not_true_is_false. intros E'. apply Qeq_bool_iff in E'.
    rewrite Qred_correct in E'. apply Qeq_bool_iff in E'. congruence.
Qed.

Lemma add_comm (a b : number) : JS.add a b = JS.add b a.
Proof.
  destruct a as [x| | |], b as [y| | |]; simpl; try reflexivity.
  f_equal. apply Qred_complete. apply Qplus_comm.
Qed.

Lemma Vector_add_comm (a b : vector) : Vector.add a b = Vector.add b a.
Proof. unfold Vector.add. f_equal; apply add_comm. Qed.

(** [1 / m] is zero exactly for an infinite [m]. *)
Lemma div_one_is_zero (m : number) :
  eqb (div (num 1) m) (num 0) = is_infinite m.
Proof.
  destruct m as [y| | |]; simpl; try reflexivity.
  destruct (Qeq_bool y 0) eqn:E; simpl; [reflexivity|].
  rewrite Qeq_bool_Qred_l.
  apply not_true_is_false. intros E'. apply Qeq_bool_iff in E'.
  assert (Hy : ~ (y == 0)%Q)
    by (intros Hy; apply Qeq_bool_iff in Hy; congruence).
  apply Hy.
  assert (H1 : (1 / y * y == 1)%Q) by (field; exact Hy).
  setoid_rewrite E' in H1. rewrite Qmult_0_l in H1. discriminate H1.
Qed.

(** ** Mass data *)

(** The two branches of [setMassData]: on the configured mass, then on
    [static]. *)
Ltac mass_cases b :=
  unfold Body.setMassData;
  destruct (eqb (Body.mass (Body.set_area (Body.calcArea b) b)) (num 0));
  simpl; destruct (Body.static b) eqn:Est; simpl; rewrite ?Est;
  try reflexivity.

Section MassData.
Context {K : Body.Kind}.

Lemma setMassData_static (b : Body.t) :
  Body.static (Body.setMassData b) = Body.static b.
Proof.
  mass_cases b.
Qed.

Lemma setMassData_inverseMass (b : Body.t) :
  Body.inverseMass (Body.setMassData b) =
    match Body.static b with
    | staticType.none => div (num 1) (Body.mass (Body.setMassData b))
    | _ => num 0
    end.
Proof.
  mass_cases b.
Qed.

Lemma setMassData_mass_density (b : Body.t) :
  let b' := Body.setMassData b in
  if eqb (Body.mass b) (num 0)
  then Body.mass b' = mul (Body.calcArea b) (Body.density b) /\
       Body.density b' = Body.density b
  else Body.density b' =
         Body.calcDensity (Body.set_area (Body.calcArea b) b) /\
       Body.mass b' = Body.mass b.
Proof.
  cbn zeta.
  change (Body.mass b) with (Body.mass (Body.set_area (Body.calcArea b) b)).
  mass_cases b; split; reflexivity.
Qed.

End MassData.

(** C1 (as amended): [setMassData()] sets [area] to [calcArea()]; with a
    configured mass other than 0 it recomputes [density] by [calcDensity()]
    and keeps the mass, otherwise it sets [mass] to area times the density it
    finds (0.01 on a body fresh from the constructor); [inverseMass] becomes 0
    for a [position] or [total] static body and [1 / mass] otherwise.  When
    the resulting mass is not an infinity, [inverseMass == 0] holds exactly
    when [static] is not [none]. *)
Theorem setMassData_spec {K : Body.Kind} (b : Body.t) :
  is_infinite (Body.mass (Body.setMassData b)) = false ->
  let b' := Body.setMassData b in
  Body.area b' = Body.calcArea b /\
  (if eqb (Body.mass b) (num 0)
   then Body.mass b' = mul (Body.area b') (Body.density b) /\
        Body.density b' = Body.density b
   else Body.density b' =
          Body.calcDensity (Body.set_area (Body.calcArea b) b) /\
        Body.mass b' = Body.mass b) /\
  (forall sh opt,
     Body.density (Body.initPhysicalData sh opt) = Fin (1 # 100)) /\
  Body.inverseMass b' =
    match Body.static b' with
    | staticType.none => div (num 1) (Body.mass b')
    | _ => num 0
    end /\
  (eqb (Body.inverseMass b') (num 0) = true <->
   Body.static b' <> staticType.none).
Proof.
  intros Hfin b'.
  assert (Harea : Body.area b' = Body.calcArea b).
  { unfold b'. mass_cases b. }
  assert (Hinv := setMassData_inverseMass b).
  assert (Hst := setMassData_static b).
  fold b' in Hinv, Hst, Hfin.
  split; [exact Harea|].
  split; [rewrite Harea; exact (setMassData_mass_density b)|].
  split; [intros sh opt; unfold Body.initPhysicalData;
          destruct (BodyConfig.nature opt); reflexivity|].
  split; [rewrite Hst; exact Hinv|].
  rewrite Hinv, Hst.
  destruct (Body.static b).
  - rewrite div_one_is_zero, Hfin. split; [discriminate|congruence].
  - split; [discriminate|reflexivity].
  - split; [discriminate|reflexivity].
Qed.

(** The box of mass 10 (area 1000 at the default density), free. *)
Lemma setMassData_spec_witness :
  let b :=
    Body.setMassData (K := Sample.box)
      (Sample.body (num 400, num 0) None None) in
  is_infinite (Body.mass b) = false /\
  Body.mass b = num 10 /\ Body.inverseMass b = Fin (1 # 10) /\
  (eqb (Body.inverseMass b) (num 0) = true <->
   Body.static b <> staticType.none).
Proof.
  pose proof (setMassData_spec (K := Sample.box)
                (Sample.body (num 400, num 0) None None) eq_refl) as H.
  cbn zeta in H. destruct H as (_ & _ & _ & _ & H).
  split; [reflexivity|]. split; [reflexivity|].
  split; [reflexivity|]. exact H.
Defined.

(** C1, as stated, fails for a body configured with [mass: Infinity] and
    left free: [1 / Infinity] is 0 although [static] is [none]. *)
Lemma setMassData_infinite_mass :
  let b :=
    Body.setMassData (K := Sample.box)
      (Sample.body (num 400, num 0) None
         (Some (Sample.nature (Some PInf) None None))) in
  Body.mass b = PInf /\
  eqb (Body.inverseMass b) (num 0) = true /\
  Body.static b = staticType.none /\
  ~ (eqb (Body.inverseMass b) (num 0) = true <->
     Body.static b <> staticType.none).
Proof.
  cbn zeta. split; [reflexivity|]. split; [reflexivity|].
  split; [reflexivity|].
  intros [H _]. apply H; reflexivity.
Qed.

(** ** Integration and the setters *)

(** C2 (as amended): [integrateRotation()] sets the angular velocity to
    [ω + α]; it reduces [rot] modulo 360 only when the orientation it finds
    is at least 360, and then sets the orientation (and the proxy's
    [rotate]) to that value plus the new angular velocity, without reducing
    the sum. *)
Theorem integrateRotation_spec {K : Body.Kind} (b : Body.t) :
  let b' := Body.integrateRotation b in
  let w' := JS.add (Body.angularVel b) (Body.angularAcc b) in
  Body.angularVel b' = w' /\
  Body.rot b' =
    JS.add (if geb (Body.rot b) (num 360)
            then rem (Body.rot b) (num 360) else Body.rot b) w' /\
  Shape._rotate (Body.shape b') = Body.rot b'.
Proof.
  unfold Body.integrateRotation. cbn zeta.
  change (Body.rot (Body.set_angularVel _ b)) with (Body.rot b).
  destruct (geb (Body.rot b) (num 360)); repeat split.
Qed.

(** C2, as stated, fails at [rot = 350], [ω = 20], [α = 0]: the orientation
    becomes 370, not [370 mod 360 = 10], and is outside [0, 360). *)
Lemma integrateRotation_exceeds_360 :
  let b :=
    Sample.body (num 400, num 0) (Some (num 350))
      (Some (Sample.nature None (Some (num 20)) None)) in
  let b' := Body.integrateRotation (K := Sample.box) b in
  Body.rot b = num 350 /\ Body.angularVel b = num 20 /\
  Body.angularAcc b = num 0 /\
  Body.rot b' = num 370 /\
  rem (JS.add (Body.rot b) (JS.add (Body.angularVel b) (Body.angularAcc b)))
      (num 360) = num 10 /\
  ltb (Body.rot b') (num 360) = false /\
  ~ (Body.rot b' =
       rem (JS.add (Body.rot b)
              (JS.add (Body.angularVel b) (Body.angularAcc b))) (num 360) /\
     geb (Body.rot b') (num 0) = true /\
     ltb (Body.rot b') (num 360) = true).
Proof.
  cbn zeta. do 6 (split; [reflexivity|]).
  intros (_ & _ & H). discriminate H.
Qed.

(** C3 (as amended): [setRotation(d)] stores [d] as it is given, with no
    reduction to [0, 360): afterwards [rot] and the proxy's [rotate] are
    [d].  A second [setRotation] overwrites the first, so calling it again
    with the same [d] leaves [rot] and the proxy's [rotate] as they are. *)
Theorem setRotation_spec {K : Body.Kind} (d d1 : number) (b : Body.t) :
  Body.rot (Body.setRotation d b) = d /\
  Shape._rotate (Body.shape (Body.setRotation d b)) = d /\
  Body.rot (Body.setRotation d (Body.setRotation d1 b)) =
    Body.rot (Body.setRotation d b) /\
  Body.shape (Body.setRotation d (Body.setRotation d1 b)) =
    Body.shape (Body.setRotation d b) /\
  Body.rot (Body.setRotation d (Body.setRotation d b)) =
    Body.rot (Body.setRotation d b) /\
  Body.shape (Body.setRotation d (Body.setRotation d b)) =
    Body.shape (Body.setRotation d b).
Proof. repeat split. Qed.

(** C3, as stated, fails at [d = 370]: the stored orientation is 370, and
    [setRotation(10)] followed by [setRotation(370)] leaves 370 where
    [setRotation(10)] alone leaves 10. *)
Lemma setRotation_not_normalized :
  let b := Sample.body (num 400, num 0) None None in
  let b1 := Body.setRotation (K := Sample.box) (num 370) b in
  let b2 :=
    Body.setRotation (K := Sample.box) (num 370)
      (Body.setRotation (K := Sample.box) (num 10) b) in
  Body.rot b1 = num 370 /\ ltb (Body.rot b1) (num 360) = false /\
  rem (num 370) (num 360) = rem (num 10) (num 360) /\
  Body.rot b2 = num 370 /\
  Body.rot (Body.setRotation (K := Sample.box) (num 10) b) = num 10 /\
  ~ (geb (Body.rot b1) (num 0) = true /\
     ltb (Body.rot b1) (num 360) = true) /\
  b2 <> Body.setRotation (K := Sample.box) (num 10) b.
Proof.
  cbn zeta. do 5 (split; [reflexivity|]). split.
  - intros [_ H]. discriminate H.
  - intros H. apply (f_equal Body.rot) in H. discriminate H.
Qed.

(** C5: [integratePosition()] first sets the velocity to [v + a] and then
    the position to [pos] plus that updated velocity. *)
Theorem integratePosition_spec {K : Body.Kind} (b : Body.t) :
  let b' := Body.integratePosition b in
  Body.linearVel b' = Vector.add (Body.linearVel b) (Body.linearAcc b) /\
  Body.pos b' = Vector.add (Body.pos b) (Body.linearVel b').
Proof.
  unfold Body.integratePosition. cbn zeta. split; [reflexivity|].
  apply Vector_add_comm.
Qed.

(** C6: after [setPos(p)] the position reads [p], and the proxy's [x] and
    [y] are moved by the components of [p - pos_old]. *)
Theorem setPos_spec {K : Body.Kind} (p : vector) (b : Body.t) :
  let b' := Body.setPos p b in
  let dPos := Vector.sub p (Body.pos b) in
  Body.pos b' = p /\
  Shape._x (Body.shape b') = JS.add (Shape._x (Body.shape b)) (fst dPos) /\
  Shape._y (Body.shape b') = JS.add (Shape._y (Body.shape b)) (snd dPos).
Proof. repeat split. Qed.

Example setPos_example :
  let b := Sample.body (num 400, num 0) None None in
  let b' := Body.setPos (K := Sample.box) (num 410, num 25) b in
  Body.pos b' = (num 410, num 25) /\
  Shape._x (Body.shape b') = num 410 /\ Shape._y (Body.shape b') = num 25.
Proof. repeat split. Qed.

(** ** The sleep heuristic *)

Section Sleep.
Context {L : Vector.Len} {D : StdDev}.

(** The two tests of [isTimeToSleep]: on the length of the ring it finds,
    on the length after the push, and then on the deviation. *)
Ltac sleep_cases b :=
  unfold Body.isTimeToSleep;
  destruct (20 <=? length (Body.frameMotionListIn10 b))%nat; simpl;
  match goal with
  | |- context [(length ?x =? 20)%nat] => destruct (length x =? 20)%nat
  end; simpl;
  try match goal with
      | |- context [ltb ?s ?t] => destruct (ltb s t)
      end;
  reflexivity.

Lemma isTimeToSleep_ring (lv : vector) (av : number) (b : Body.t) :
  Body.frameMotionListIn10 (Body.isTimeToSleep lv av b) =
    (if (20 <=? length (Body.frameMotionListIn10 b))%nat
     then tl (Body.frameMotionListIn10 b)
     else Body.frameMotionListIn10 b)
    ++ [JS.add (mul (len lv) (len lv)) (mul av av)].
Proof. sleep_cases b. Qed.

Lemma isTimeToSleep_ring_bound (lv : vector) (av : number) (b : Body.t) :
  (length (Body.frameMotionListIn10 b) <= 20)%nat ->
  (length (Body.frameMotionListIn10 (Body.isTimeToSleep lv av b)) <= 20)%nat.
Proof.
  intros Hlen. rewrite isTimeToSleep_ring.
  destruct (20 <=? length (Body.frameMotionListIn10 b))%nat eqn:E;
    rewrite length_app; simpl.
  - destruct (Body.frameMotionListIn10 b); simpl in *; lia.
  - apply Nat.leb_gt in E. lia.
Qed.

Lemma isTimeToSleep_state (lv : vector) (av : number) (b : Body.t) :
  let l' := Body.frameMotionListIn10 (Body.isTimeToSleep lv av b) in
  Body.state (Body.isTimeToSleep lv av b) =
    (if (length l' =? 20)%nat
     then if ltb (calcStandardDeviation l') (num 500)
          then state.sleep else state.simulate
     else Body.state b).
Proof. cbn zeta. rewrite isTimeToSleep_ring. sleep_cases b. Qed.

(** From the empty ring of a new body, no run of calls makes the ring
    longer than 20. *)
Lemma ring_bound_reachable (sh : Shape.t) (opt : BodyConfig.t)
    (calls : list (vector * number)) :
  (length (Body.frameMotionListIn10
     (fold_left (fun b c => Body.isTimeToSleep (fst c) (snd c) b) calls
        (Body.initPhysicalData sh opt))) <= 20)%nat.
Proof.
  assert (H0 : (length (Body.frameMotionListIn10
                          (Body.initPhysicalData sh opt)) <= 20)%nat).
  { unfold Body.initPhysicalData.
    destruct (BodyConfig.nature opt); simpl; lia. }
  revert H0. generalize (Body.initPhysicalData sh opt).
  induction calls as [|c calls IH]; intros b Hb; simpl.
  - exact Hb.
  - apply IH. apply isTimeToSleep_ring_bound. exact Hb.
Qed.

End Sleep.

(** C7: [isTimeToSleep(lv, av)] appends the sample [len(lv)² + av²] to the
    ring, dropping the oldest entry first when the ring already holds 20, so
    that a ring of at most 20 entries stays one; when the ring then holds
    exactly 20 entries the state becomes [sleep] if the standard deviation of
    the ring is below 500 and [simulate] otherwise; with fewer entries the
    state is left as it is. *)
Theorem isTimeToSleep_spec {L : Vector.Len} {D : StdDev}
    (lv : vector) (av : number) (b : Body.t) :
  (length (Body.frameMotionListIn10 b) <= 20)%nat ->
  let motion := JS.add (mul (len lv) (len lv)) (mul av av) in
  let l := Body.frameMotionListIn10 b in
  let b' := Body.isTimeToSleep lv av b in
  let l' := Body.frameMotionListIn10 b' in
  l' = (if (20 <=? length l)%nat then tl l else l) ++ [motion] /\
  (length l' <= 20)%nat /\
  Body.state b' =
    (if (length l' =? 20)%nat
     then if ltb (calcStandardDeviation l') (num 500)
          then state.sleep else state.simulate
     else Body.state b).
Proof.
  intros Hlen. cbn zeta. split; [apply isTimeToSleep_ring|].
  split; [apply isTimeToSleep_ring_bound; exact Hlen|].
  apply isTimeToSleep_state.
Qed.

(** A body at rest: 19 samples leave the state at [init], the 20th puts it
    to sleep. *)
Lemma isTimeToSleep_spec_witness :
  let rest :=
    Body.isTimeToSleep (L := Sample.len) (D := Sample.stdDev)
      (num 0, num 0) (num 0) in
  let b19 := Nat.iter 19 rest (Sample.body (num 400, num 0) None None) in
  (length (Body.frameMotionListIn10 b19) <= 20)%nat /\
  Body.state b19 = state.init /\
  length (Body.frameMotionListIn10 (rest b19)) = 20%nat /\
  Body.state (rest b19) = state.sleep.
Proof.
  cbn zeta.
  assert (Hlen : (length (Body.frameMotionListIn10
             (Nat.iter 19
                (Body.isTimeToSleep (L := Sample.len) (D := Sample.stdDev)
                   (num 0, num 0) (num 0))
                (Sample.body (num 400, num 0) None None))) <= 20)%nat)
    by (vm_compute; lia).
  pose proof (isTimeToSleep_spec (L := Sample.len) (D := Sample.stdDev)
                (num 0, num 0) (num 0) _ Hlen) as H.
  cbn zeta in H. destruct H as (_ & _ & H).
  split; [exact Hlen|]. split; [reflexivity|]. split; [reflexivity|].
  rewrite H. reflexivity.
Defined.

(** ** Construction *)

(** C10: a configured [restitution] of 0 is falsy, so the body keeps the
    default 0.9; likewise a configured [mass] of 0 or [angularVelocity] of 0
    gives way to the default of the field. *)
Theorem initPhysicalData_falsy_defaults (sh : Shape.t) (opt : BodyConfig.t)
    (n : Nature.t) (r : number) :
  BodyConfig.nature opt = Some n ->
  Nature.restitution n = Some r ->
  eqb r (num 0) = true ->
  let b := Body.initPhysicalData sh opt in
  Body.restitution b = Fin (9 # 10) /\
  eqb (Body.restitution b) (num 0) = false /\
  (forall m, Nature.mass n = Some m -> eqb m (num 0) = true ->
             Body.mass b = num 0) /\
  (forall w, Nature.angularVelocity n = Some w -> eqb w (num 0) = true ->
             Body.angularVel b = num 0).
Proof.
  intros Hn Hr Hz b.
  assert (Hfalsy : forall x d, eqb x (num 0) = true ->
                               or_default (Some x) d = d).
  { intros [q| | |] d Hx; try discriminate Hx.
    unfold or_default, truthy. unfold eqb, num in Hx.
    change (inject_Z 0) with 0%Q in Hx. rewrite Hx. reflexivity. }
  unfold b, Body.initPhysicalData. rewrite Hn. simpl.
  rewrite Hr, (Hfalsy _ _ Hz).
  split; [reflexivity|]. split; [reflexivity|].
  split; intros x Hx Hx0; rewrite Hx; apply Hfalsy; exact Hx0.
Qed.

Lemma initPhysicalData_falsy_defaults_witness :
  let b :=
    Sample.body (num 400, num 0) None
      (Some (Sample.nature (Some (num 0)) (Some (num 0)) (Some (num 0)))) in
  Body.restitution b = Fin (9 # 10) /\ Body.mass b = num 0 /\
  Body.angularVel b = num 0.
Proof.
  cbn zeta.
  pose proof (initPhysicalData_falsy_defaults
                (Shape.new 1 {| Shape.pin := (num 400, num 0);
                                Shape.rotate := None |})
                {| BodyConfig.shape :=
                     {| Shape.pin := (num 400, num 0); Shape.rotate := None |};
                   BodyConfig.nature :=
                     Some (Sample.nature (Some (num 0)) (Some (num 0))
                             (Some (num 0))) |}
                _ (num 0) eq_refl eq_refl eq_refl) as H.
  cbn zeta in H. destruct H as (H1 & _ & H2 & H3).
  split; [exact H1|]. split.
  - exact (H2 (num 0) eq_refl eq_refl).
  - exact (H3 (num 0) eq_refl eq_refl).
Defined.

(** ** The layer manager *)

Lemma getWidth_new (e : HTMLElement.t) :
  LayerManager.getWidth (LayerManager.new e) = HTMLElement.offsetHeight e /\
  LayerManager.getHeight (LayerManager.new e) = HTMLElement.offsetWidth e.
Proof. split; reflexivity. Qed.

Lemma World_getWidth_new (e : HTMLElement.t) :
  WorldCreator.getWidth (WorldCreator.new e) = HTMLElement.offsetHeight e /\
  WorldCreator.getHeight (WorldCreator.new e) = HTMLElement.offsetWidth e.
Proof. split; reflexivity. Qed.

(** C4: over a container 800 wide and 600 high, [getWidth()] returns 600 and
    [getHeight()] returns 800, on the layer manager and on the world alike:
    the two getters read each other's slot of [containerSize]. *)
Theorem getWidth_getHeight_swapped :
  let e := {| HTMLElement.offsetWidth := 800;
              HTMLElement.offsetHeight := 600 |} in
  LayerManager.containerSize (LayerManager.new e) = (800, 600) /\
  LayerManager.getWidth (LayerManager.new e) = 600 /\
  LayerManager.getHeight (LayerManager.new e) = 800 /\
  WorldCreator.getWidth (WorldCreator.new e) = 600 /\
  WorldCreator.getHeight (WorldCreator.new e) = 800.
Proof. cbn zeta. repeat split. Qed.

Lemma addCounts_start (t : Z) (m : gmap Z Layer.t) :
  LayerManager.addCounts t m = t + LayerManager.addCounts 0 m.
Proof.
  unfold LayerManager.addCounts.
  rewrite <- (map_fold_comm_acc _ (fun acc => t + acc)).
  - f_equal. lia.
  - intros. lia.
Qed.

Lemma after_calls_state (n : nat) (lm : LayerManager.t) :
  LayerManager.layerMap (LayerManager.after_calls n lm) =
    LayerManager.layerMap lm /\
  LayerManager.totalShapeCount (LayerManager.after_calls n lm) =
    LayerManager.totalShapeCount lm +
    Z.of_nat n * LayerManager.addCounts 0 (LayerManager.layerMap lm).
Proof.
  induction n as [|n [IHm IHt]].
  - simpl. split; [reflexivity|lia].
  - change (LayerManager.after_calls (S n) lm)
      with (snd (LayerManager.getTotalCount (LayerManager.after_calls n lm))).
    split; [exact IHm|].
    change (LayerManager.totalShapeCount
              (snd (LayerManager.getTotalCount
                      (LayerManager.after_calls n lm))))
      with (LayerManager.addCounts
              (LayerManager.totalShapeCount (LayerManager.after_calls n lm))
              (LayerManager.layerMap (LayerManager.after_calls n lm))).
    rewrite addCounts_start, IHm, IHt. lia.
Qed.

(** C9: [getTotalCount()] adds the layers' counts onto the running total it
    keeps: starting from the total 0 the constructor leaves, and with the
    layers unchanged, the call after [n] earlier ones returns [n + 1] times
    the sum of the layers' counts, and every call leaves the layers as they
    are. *)
Theorem getTotalCount_accumulates (lm : LayerManager.t) (n : nat) :
  LayerManager.totalShapeCount lm = 0 ->
  fst (LayerManager.getTotalCount (LayerManager.after_calls n lm)) =
    (Z.of_nat n + 1) * LayerManager.addCounts 0 (LayerManager.layerMap lm) /\
  LayerManager.layerMap (LayerManager.after_calls (S n) lm) =
    LayerManager.layerMap lm.
Proof.
  intros H0. destruct (after_calls_state n lm) as [Hm Ht].
  split; [|apply after_calls_state].
  unfold LayerManager.getTotalCount. simpl.
  rewrite addCounts_start, Hm, Ht, H0. lia.
Qed.

(** Three shapes on two layers: the calls return 3, 6, 9. *)
Lemma getTotalCount_accumulates_witness :
  let s :=
    Shape.new 1 {| Shape.pin := (num 0, num 0); Shape.rotate := None |} in
  let lm :=
    LayerManager.append 3 s
      (LayerManager.append 0 s
         (LayerManager.append 0 s
            (LayerManager.new {| HTMLElement.offsetWidth := 800;
                                 HTMLElement.offsetHeight := 600 |}))) in
  LayerManager.totalShapeCount lm = 0 /\
  LayerManager.addCounts 0 (LayerManager.layerMap lm) = 3 /\
  fst (LayerManager.getTotalCount lm) = 3 /\
  fst (LayerManager.getTotalCount (LayerManager.after_calls 1 lm)) = 6 /\
  fst (LayerManager.getTotalCount (LayerManager.after_calls 2 lm)) = 9.
Proof.
  cbn zeta.
  split; [reflexivity|]. split; [vm_compute; reflexivity|].
  split; [vm_compute; reflexivity|].
  split; [vm_compute; reflexivity|].
  match goal with
  | |- fst (LayerManager.getTotalCount (LayerManager.after_calls 2 ?lm)) = _ =>
      destruct (getTotalCount_accumulates lm 2 eq_refl) as [H _]
  end.
  rewrite H. vm_compute. reflexivity.
Defined.

(** [clear()] keeps layer 0, emptied, and drops every other layer. *)
Lemma LayerManager_clear_layerMap (lm : LayerManager.t) :
  LayerManager.layerMap (LayerManager.clear lm) =
    match LayerManager.layerMap lm !! 0 with
    | Some l => {[ 0 := Layer.clear l ]}
    | None => ∅
    end.
Proof.
  unfold LayerManager.clear.
  set (m0 := LayerManager.layerMap lm).
  assert (Hinv : forall m : gmap Z Layer.t,
    forall z, LayerManager.layerMap
                (map_fold LayerManager.clear_step lm m) !! z =
      match m !! z with
      | Some _ => if decide (z = 0) then Layer.clear <$> m0 !! z else None
      | None => m0 !! z
      end).
  { intros m.
    apply (map_fold_weak_ind (fun r (m : gmap Z Layer.t) =>
      forall z, LayerManager.layerMap r !! z =
        match m !! z with
        | Some _ => if decide (z = 0) then Layer.clear <$> m0 !! z else None
        | None => m0 !! z
        end)).
    - intros z. rewrite lookup_empty. reflexivity.
    - intros i x m' r Hi IH z. unfold LayerManager.clear_step.
      destruct (decide (i = z)) as [->|Hne].
      + rewrite lookup_insert_eq. specialize (IH z). rewrite Hi in IH.
        destruct (decide (z = 0)); simpl.
        * rewrite lookup_alter_eq, IH. reflexivity.
        * rewrite lookup_delete_eq. reflexivity.
      + rewrite lookup_insert_ne by exact Hne. rewrite <- IH.
        destruct (decide (i = 0)); simpl.
        * rewrite lookup_alter_ne by exact Hne. reflexivity.
        * rewrite lookup_delete_ne by exact Hne.
          rewrite lookup_alter_ne by exact Hne. reflexivity. }
  apply map_eq. intros z. rewrite (Hinv m0 z).
  destruct (decide (z = 0)) as [->|Hz].
  - destruct (m0 !! 0) as [l|] eqn:E; simpl.
    + rewrite lookup_singleton_eq. reflexivity.
    + rewrite lookup_empty. reflexivity.
  - destruct (m0 !! 0) as [l|].
    + rewrite lookup_singleton_ne by congruence.
      destruct (m0 !! z); reflexivity.
    + rewrite lookup_empty. destruct (m0 !! z); reflexivity.
Qed.

Lemma LayerManager_clear_no_shapes (lm : LayerManager.t) :
  LayerManager.addCounts 0
    (LayerManager.layerMap (LayerManager.clear lm)) = 0.
Proof.
  rewrite LayerManager_clear_layerMap. unfold LayerManager.addCounts.
  destruct (LayerManager.layerMap lm !! 0).
  - rewrite map_fold_singleton. reflexivity.
  - rewrite map_fold_empty. reflexivity.
Qed.

(** ** The world *)

(** C8: [clear()] leaves the body heap empty and the renderer without a
    shape (only layer 0 stays, emptied), and the boundary manager is the one
    from before the call. *)
Theorem World_clear_spec (w : WorldCreator.t) :
  let w' := WorldCreator.clear w in
  let layers r := LayerManager.layerMap (RendererCreator.layerManager r) in
  BodyHeap.heap (WorldCreator.bodyHeap w') = [] /\
  layers (WorldCreator.Renderer w') =
    match layers (WorldCreator.Renderer w) !! 0 with
    | Some l => {[ 0 := Layer.clear l ]}
    | None => ∅
    end /\
  LayerManager.addCounts 0 (layers (WorldCreator.Renderer w')) = 0 /\
  WorldCreator.boundariesManager w' = WorldCreator.boundariesManager w.
Proof.
  cbn zeta. split; [reflexivity|]. split.
  - apply LayerManager_clear_layerMap.
  - split; [apply LayerManager_clear_no_shapes|reflexivity].
Qed.

(** * Further properties of the code *)

(** ** Finite numbers *)


Lemma is_fin_sub (a b : number) (x y : Q) :
  is_fin a x -> is_fin b y -> is_fin (JS.sub a b) (x - y).
Proof.
  destruct a as [p| | |], b as [q| | |]; simpl; try tauto.
  intros Hp Hq. rewrite Qred_correct, Hp, Hq. reflexivity.
Qed.


Lemma is_fin_finite (a : number) : finite a <-> exists q, is_fin a q.
Proof.
  destruct a as [p| | |]; simpl; split; try tauto;
    try (intros [q []]).
  intros _. exists p. reflexivity.
Qed.

(** ** Construction *)

(** X1: a new body is [position]-static exactly when its nature's [static]
    is the string ["position"], and [total]-static exactly when it is
    ["total"]; any other string, or none, leaves it free.  It starts in the
    state [init] with [inverseMass] -1. *)
Theorem initPhysicalData_static (sh : Shape.t) (opt : BodyConfig.t) :
  let b := Body.initPhysicalData sh opt in
  let configured str :=
    exists n, BodyConfig.nature opt = Some n /\
              Nature.static n = Some str in
  (Body.static b = staticType.position <-> configured "position"%string) /\
  (Body.static b = staticType.total <-> configured "total"%string) /\
  Body.state b = state.init /\
  Body.inverseMass b = num (-1).
Proof.
  cbn zeta. unfold Body.initPhysicalData.
  destruct (BodyConfig.nature opt) as [n|]; simpl.
  - unfold Body.static_of.
    destruct (Nature.static n) as [str|] eqn:Es.
    + destruct (String.eqb_spec str "") as [->|H0].
      { repeat split; try discriminate;
          intros (n' & Hn & Hs); inversion Hn; subst; congruence. }
      destruct (String.eqb_spec str "none") as [->|H1].
      { repeat split; try discriminate;
          intros (n' & Hn & Hs); inversion Hn; subst; congruence. }
      destruct (String.eqb_spec str "position") as [->|H2].
      { repeat split; try discriminate; eauto;
          intros (n' & Hn & Hs); inversion Hn; subst; congruence. }
      destruct (String.eqb_spec str "total") as [->|H3].
      { repeat split; try discriminate; eauto;
          intros (n' & Hn & Hs); inversion Hn; subst; congruence. }
      repeat split; try discriminate;
        intros (n' & Hn & Hs); inversion Hn; subst; congruence.
    + repeat split; try discriminate;
        intros (n' & Hn & Hs); inversion Hn; subst; congruence.
  - repeat split; try discriminate; intros (n' & Hn & _); discriminate.
Qed.

(** ** Mass data at the edges *)



(** ** Integration over several steps *)

Section Steps.
Context {K : Body.Kind}.

Lemma integratePosition_linearAcc (b : Body.t) :
  Body.linearAcc (Body.integratePosition b) = Body.linearAcc b.
Proof. reflexivity. Qed.


End Steps.




Section Rotation.
Context {K : Body.Kind}.



End Rotation.





(** ** The proxy and the position *)

Section Proxy.
Context {K : Body.Kind}.






End Proxy.



(** X7: the proxy does not come back from infinity: once the proxy's [x] is
    NaN, or [x] and the position's first component are the same infinity,
    every [setPos] leaves the proxy's [x] NaN, while the position itself
    becomes the [p] given. *)
Theorem setPos_proxy_lost {K : Body.Kind} (p : vector) (b : Body.t) :
  Shape._x (Body.shape b) = NaN \/
  (is_infinite (Shape._x (Body.shape b)) = true /\
   Shape._x (Body.shape b) = fst (Body.pos b)) ->
  Shape._x (Body.shape (Body.setPos p b)) = NaN /\
  Body.pos (Body.setPos p b) = p.
Proof.
  intros H. split; [|reflexivity].
  change (JS.add (Shape._x (Body.shape b))
            (JS.sub (fst p) (fst (Body.pos b))) = NaN).
  destruct H as [-> | [Hinf <-]]; [reflexivity|].
  destruct (Shape._x (Body.shape b)); try discriminate Hinf;
    destruct (fst p); reflexivity.
Qed.

(** A body sent to x = Infinity and called back to x = 0. *)
Lemma setPos_proxy_lost_witness :
  let b :=
    Body.setPos (K := Sample.box) (PInf, num 0)
      (Sample.body (num 400, num 0) None None) in
  Shape._x (Body.shape b) = PInf /\ fst (Body.pos b) = PInf /\
  Shape._x (Body.shape (Body.setPos (K := Sample.box) (num 0, num 0) b)) = NaN.
Proof.
  cbn zeta. split; [reflexivity|]. split; [reflexivity|].
  apply (setPos_proxy_lost (K := Sample.box)).
  right. split; reflexivity.
Defined.

(** ** The sample ring over many calls *)

Section Ring.
Context {L : Vector.Len} {D : StdDev}.

Lemma last_n_short {A : Type} (n : nat) (l : list A) :
  (length l <= n)%nat -> last_n n l = l.
Proof.
  intros H. unfold last_n.
  replace (length l - n)%nat with 0%nat by lia. reflexivity.
Qed.

Lemma last_n_length {A : Type} (n : nat) (l : list A) :
  length (last_n n l) = Nat.min (length l) n.
Proof. unfold last_n. rewrite length_skipn. lia. Qed.

Lemma last_n_cons {A : Type} (n : nat) (a : A) (l : list A) :
  (n <= length l)%nat -> last_n n (a :: l) = last_n n l.
Proof.
  intros H. unfold last_n. simpl length.
  replace (S (length l) - n)%nat with (S (length l - n)) by lia.
  reflexivity.
Qed.

Lemma sleep_calls_ring (cs : list (vector * number)) (b : Body.t) :
  (length (Body.frameMotionListIn10 b) <= 20)%nat ->
  Body.frameMotionListIn10 (sleep_calls cs b) =
    last_n 20 (Body.frameMotionListIn10 b ++ map motion cs).
Proof.
  revert b. induction cs as [|c cs IH]; intros b Hb; simpl.
  - rewrite app_nil_r, last_n_short by exact Hb. reflexivity.
  - unfold sleep_calls in *. rewrite IH
      by (apply isTimeToSleep_ring_bound; exact Hb).
    rewrite isTimeToSleep_ring. fold (motion c).
    destruct (20 <=? length (Body.frameMotionListIn10 b))%nat eqn:E.
    + apply Nat.leb_le in E.
      destruct (Body.frameMotionListIn10 b) as [|a t]; simpl in *; [lia|].
      rewrite <- app_assoc. simpl.
      rewrite last_n_cons; [reflexivity|].
      rewrite length_app. simpl. lia.
    + rewrite <- app_assoc. reflexivity.
Qed.

Lemma sleep_calls_state_early (cs : list (vector * number)) (b : Body.t) :
  (length (Body.frameMotionListIn10 b) + length cs < 20)%nat ->
  Body.state (sleep_calls cs b) = Body.state b.
Proof.
  revert b. induction cs as [|c cs IH]; intros b Hb; simpl in *.
  - reflexivity.
  - assert (Hlen : length (Body.frameMotionListIn10
                             (Body.isTimeToSleep (fst c) (snd c) b)) =
                   S (length (Body.frameMotionListIn10 b))).
    { rewrite isTimeToSleep_ring.
      destruct (20 <=? length (Body.frameMotionListIn10 b))%nat eqn:E;
        [apply Nat.leb_le in E; lia|].
      rewrite length_app. simpl. lia. }
    unfold sleep_calls in *. rewrite IH by (rewrite Hlen; lia).
    pose proof (isTimeToSleep_state (fst c) (snd c) b) as Hs.
    cbn zeta in Hs. rewrite Hs, Hlen.
    destruct (Nat.eqb_spec (S (length (Body.frameMotionListIn10 b))) 20);
      [lia|reflexivity].
Qed.

Lemma new_body_ring (sh : Shape.t) (opt : BodyConfig.t)
    (cs : list (vector * number)) :
  Body.frameMotionListIn10 (sleep_calls cs (Body.initPhysicalData sh opt)) =
    last_n 20 (map motion cs).
Proof.
  assert (H0 : Body.frameMotionListIn10 (Body.initPhysicalData sh opt) = []).
  { unfold Body.initPhysicalData.
    destruct (BodyConfig.nature opt); reflexivity. }
  rewrite sleep_calls_ring by (rewrite H0; simpl; lia).
  rewrite H0. reflexivity.
Qed.

End Ring.

(** X8: the ring is a window on the last 20 samples: after any run of
    [isTimeToSleep] calls on a new body it holds the samples of the last 20
    calls (of all of them, when there were fewer), oldest first, and so
    never more than 20. *)
Theorem ring_is_last_20 {L : Vector.Len} {D : StdDev}
    (sh : Shape.t) (opt : BodyConfig.t) (cs : list (vector * number)) :
  let ring :=
    Body.frameMotionListIn10
      (sleep_calls cs (Body.initPhysicalData sh opt)) in
  ring = last_n 20 (map motion cs) /\
  length ring = Nat.min (length cs) 20.
Proof.
  cbn zeta. rewrite new_body_ring. split; [reflexivity|].
  rewrite last_n_length, length_map. reflexivity.
Qed.

(** X9: a new body stays in the state [init] through its first 19
    [isTimeToSleep] calls; from the 20th call on its state is decided by the
    last 20 samples alone: [sleep] when their standard deviation is below
    500, [simulate] otherwise, whatever the state was before. *)
Theorem sleep_state_by_last_20 {L : Vector.Len} {D : StdDev}
    (sh : Shape.t) (opt : BodyConfig.t) (cs : list (vector * number)) :
  Body.state (sleep_calls cs (Body.initPhysicalData sh opt)) =
    if (length cs <? 20)%nat then state.init
    else if ltb (calcStandardDeviation (last_n 20 (map motion cs))) (num 500)
         then state.sleep else state.simulate.
Proof.
  assert (H0 : Body.frameMotionListIn10 (Body.initPhysicalData sh opt) = []).
  { unfold Body.initPhysicalData.
    destruct (BodyConfig.nature opt); reflexivity. }
  assert (Hi : Body.state (Body.initPhysicalData sh opt) = state.init).
  { unfold Body.initPhysicalData.
    destruct (BodyConfig.nature opt); reflexivity. }
  destruct (Nat.ltb_spec (length cs) 20) as [Hlt|Hge].
  - rewrite sleep_calls_state_early by (rewrite H0; simpl; lia). exact Hi.
  - destruct (exists_last (l := cs)) as (cs' & c & Hcs);
      [intros ->; simpl in Hge; lia|].
    pose proof (new_body_ring sh opt cs) as Hr.
    assert (Hlen : length (last_n 20 (map motion cs)) = 20%nat)
      by (rewrite last_n_length, length_map; lia).
    revert Hr Hlen. generalize (last_n 20 (map motion cs)). intros ring.
    rewrite Hcs. unfold sleep_calls. rewrite fold_left_app. simpl.
    intros Hr Hlen.
    match goal with
    | |- Body.state (Body.isTimeToSleep ?lv ?av ?B) = _ =>
        pose proof (isTimeToSleep_state lv av B) as Hs
    end.
    cbn zeta in Hs. rewrite Hs, Hr, Hlen. reflexivity.
Qed.

(** ** Layers coming and going *)

Lemma addCounts_comm (m : gmap Z Layer.t) :
  forall (j1 j2 : Z) (z1 z2 : Layer.t) (y : Z),
    j1 <> j2 -> m !! j1 = Some z1 -> m !! j2 = Some z2 ->
    y + Layer.getCount z2 + Layer.getCount z1 =
    y + Layer.getCount z1 + Layer.getCount z2.
Proof. intros. lia. Qed.

Lemma addCounts_insert_new (z : Z) (l : Layer.t) (m : gmap Z Layer.t) :
  m !! z = None ->
  LayerManager.addCounts 0 (<[z := l]> m) =
    LayerManager.addCounts 0 m + Layer.getCount l.
Proof.
  intros Hz. unfold LayerManager.addCounts.
  rewrite map_fold_insert_L; [reflexivity| |exact Hz].
  apply addCounts_comm.
Qed.

Lemma addCounts_insert_old (z : Z) (l l' : Layer.t) (m : gmap Z Layer.t) :
  m !! z = Some l ->
  LayerManager.addCounts 0 (<[z := l']> m) =
    LayerManager.addCounts 0 m - Layer.getCount l + Layer.getCount l'.
Proof.
  intros Hz. rewrite <- insert_delete_eq.
  rewrite addCounts_insert_new by apply lookup_delete_eq.
  unfold LayerManager.addCounts at 2.
  rewrite (map_fold_delete_L _ _ z l m); [|apply addCounts_comm|exact Hz].
  fold (LayerManager.addCounts 0 (delete z m)). lia.
Qed.

Lemma append_layerMap (z : Z) (s : Shape.t) (lm : LayerManager.t) :
  LayerManager.layerMap (LayerManager.append z s lm) =
    <[z := Layer.append s
             (default (Layer.new z) (LayerManager.layerMap lm !! z))]>
      (LayerManager.layerMap lm).
Proof.
  unfold LayerManager.append.
  destruct (LayerManager.layerMap lm !! z) as [l|] eqn:E; simpl.
  - apply map_eq. intros i. destruct (decide (z = i)) as [->|Hne].
    + rewrite lookup_alter_eq, lookup_insert_eq, E. reflexivity.
    + rewrite lookup_alter_ne, lookup_insert_ne by exact Hne. reflexivity.
  - apply map_eq. intros i. destruct (decide (z = i)) as [->|Hne].
    + rewrite lookup_alter_eq, !lookup_insert_eq. reflexivity.
    + rewrite lookup_alter_ne, !lookup_insert_ne by exact Hne. reflexivity.
Qed.

(** X10: [append] puts the shape at the end of layer [z], which it makes
    first when the map has none; the other layers and the running total stay
    as they are, and the shapes of all layers are one more. *)
Theorem append_spec (z : Z) (s : Shape.t) (lm : LayerManager.t) :
  let lm' := LayerManager.append z s lm in
  let before :=
    match LayerManager.layerMap lm !! z with
    | Some l => Layer.shapes l
    | None => []
    end in
  (exists l', LayerManager.layerMap lm' !! z = Some l' /\
              Layer.shapes l' = before ++ [s]) /\
  (forall z', z' <> z ->
     LayerManager.layerMap lm' !! z' = LayerManager.layerMap lm !! z') /\
  LayerManager.totalShapeCount lm' = LayerManager.totalShapeCount lm /\
  LayerManager.addCounts 0 (LayerManager.layerMap lm') =
    LayerManager.addCounts 0 (LayerManager.layerMap lm) + 1.
Proof.
  cbn zeta. rewrite append_layerMap. split; [|split; [|split]].
  - rewrite lookup_insert_eq. eexists. split; [reflexivity|].
    destruct (LayerManager.layerMap lm !! z); reflexivity.
  - intros z' Hne. rewrite lookup_insert_ne by congruence. reflexivity.
  - unfold LayerManager.append.
    destruct (LayerManager.layerMap lm !! z); reflexivity.
  - destruct (LayerManager.layerMap lm !! z) as [l|] eqn:E; simpl.
    + rewrite (addCounts_insert_old z l) by exact E.
      unfold Layer.getCount, Layer.append. simpl.
      rewrite length_app. simpl. lia.
    + rewrite addCounts_insert_new by exact E. reflexivity.
Qed.

Section Remove.
Variable layer_remove : Shape.t -> Layer.t -> Layer.t.

Lemma remove_layerMap (z : Z) (s : Shape.t) (lm lm' : LayerManager.t) :
  LayerManager.remove layer_remove z s lm = Some lm' ->
  exists l, LayerManager.layerMap lm !! z = Some l /\
    LayerManager.layerMap lm' =
      if Layer.getCount (layer_remove s l) =? 0
      then delete z (LayerManager.layerMap lm)
      else <[z := layer_remove s l]> (LayerManager.layerMap lm).
Proof.
  unfold LayerManager.remove.
  destruct (LayerManager.layerMap lm !! z) as [l|]; [|discriminate].
  intros H. exists l. split; [reflexivity|].
  destruct (Layer.getCount (layer_remove s l) =? 0);
    inversion H; subst; simpl; [|reflexivity].
  apply delete_insert_eq.
Qed.

Lemma append_no_empty_layer (z : Z) (s : Shape.t) (lm : LayerManager.t) :
  LayerManager.no_empty_layer lm ->
  LayerManager.no_empty_layer (LayerManager.append z s lm).
Proof.
  unfold LayerManager.no_empty_layer. intros H.
  rewrite append_layerMap. apply map_Forall_insert_2; [|exact H].
  unfold Layer.getCount, Layer.append. simpl. rewrite length_app. simpl. lia.
Qed.

Lemma remove_no_empty_layer (z : Z) (s : Shape.t) (lm lm' : LayerManager.t) :
  LayerManager.no_empty_layer lm ->
  LayerManager.remove layer_remove z s lm = Some lm' ->
  LayerManager.no_empty_layer lm'.
Proof.
  unfold LayerManager.no_empty_layer. intros H Hr.
  destruct (remove_layerMap z s lm lm' Hr) as (l & _ & ->).
  destruct (Z.eqb_spec (Layer.getCount (layer_remove s l)) 0) as [E|E].
  - apply map_Forall_delete. exact H.
  - apply map_Forall_insert_2; assumption.
Qed.

Lemma run_edits_no_empty_layer (es : list LayerManager.edit)
    (lm lm' : LayerManager.t) :
  LayerManager.no_empty_layer lm ->
  LayerManager.run_edits layer_remove es lm = Some lm' ->
  LayerManager.no_empty_layer lm'.
Proof.
  revert lm. induction es as [|[z s|z s] es IH]; intros lm H Hr; simpl in Hr.
  - inversion Hr; subst. exact H.
  - eapply IH; [|exact Hr]. apply append_no_empty_layer. exact H.
  - destruct (LayerManager.remove layer_remove z s lm) as [lm1|] eqn:E;
      [|discriminate].
    eapply IH; [|exact Hr]. eapply remove_no_empty_layer; eassumption.
Qed.

End Remove.

(** X11: [remove] on a z-index the map has no layer for throws, and leaves
    nothing behind to return; on a layer the map has it succeeds, leaves the
    other layers as they are, and deletes layer [z], layer 0 included, when
    the layer is empty afterwards.  This holds whatever [Layer.remove]
    does to the layer. *)
Theorem remove_spec (layer_remove : Shape.t -> Layer.t -> Layer.t)
    (z : Z) (s : Shape.t) (lm : LayerManager.t) :
  match LayerManager.layerMap lm !! z with
  | None => LayerManager.remove layer_remove z s lm = None
  | Some l =>
      exists lm', LayerManager.remove layer_remove z s lm = Some lm' /\
        (forall z', z' <> z ->
           LayerManager.layerMap lm' !! z' =
             LayerManager.layerMap lm !! z') /\
        LayerManager.layerMap lm' !! z =
          (if Layer.getCount (layer_remove s l) =? 0 then None
           else Some (layer_remove s l)) /\
        LayerManager.totalShapeCount lm' = LayerManager.totalShapeCount lm
  end.
Proof.
  unfold LayerManager.remove.
  destruct (LayerManager.layerMap lm !! z) as [l|] eqn:E; [|reflexivity].
  destruct (Layer.getCount (layer_remove s l) =? 0);
    (eexists; split; [reflexivity|]); simpl.
  - split; [|split; [|reflexivity]].
    + intros z' Hne. rewrite lookup_delete_ne, lookup_insert_ne by congruence.
      reflexivity.
    + apply lookup_delete_eq.
  - split; [|split; [|reflexivity]].
    + intros z' Hne. rewrite lookup_insert_ne by congruence. reflexivity.
    + apply lookup_insert_eq.
Qed.

(** X12: from a new manager, no run of [append] and [remove] calls that
    ends without a throw leaves an empty layer in the map, whatever
    [Layer.remove] does. *)
Theorem edits_leave_no_empty_layer
    (layer_remove : Shape.t -> Layer.t -> Layer.t)
    (e : HTMLElement.t) (es : list LayerManager.edit) (lm : LayerManager.t) :
  LayerManager.run_edits layer_remove es (LayerManager.new e) = Some lm ->
  forall z l, LayerManager.layerMap lm !! z = Some l ->
              Layer.getCount l <> 0.
Proof.
  intros Hr.
  assert (H : LayerManager.no_empty_layer lm).
  { eapply run_edits_no_empty_layer; [|exact Hr].
    unfold LayerManager.no_empty_layer. simpl. apply map_Forall_empty. }
  intros z l Hz. exact (H z l Hz).
Qed.

Lemma edits_leave_no_empty_layer_witness :
  let s1 :=
    Shape.new 1 {| Shape.pin := (num 0, num 0); Shape.rotate := None |} in
  let s2 :=
    Shape.new 2 {| Shape.pin := (num 5, num 5); Shape.rotate := None |} in
  let e := {| HTMLElement.offsetWidth := 800;
              HTMLElement.offsetHeight := 600 |} in
  let es := [LayerManager.Append 0 s1; LayerManager.Append 3 s2;
             LayerManager.Remove 0 s1] in
  let lm := LayerManager.append 3 s2 (LayerManager.new e) in
  LayerManager.run_edits Sample.layer_remove es (LayerManager.new e) =
    Some lm /\
  forall z l, LayerManager.layerMap lm !! z = Some l ->
              Layer.getCount l <> 0.
Proof.
  cbn zeta.
  match goal with
  | |- ?r = Some ?lm /\ _ =>
      assert (Hr : r = Some lm) by (vm_compute; reflexivity)
  end.
  split; [exact Hr|].
  exact (edits_leave_no_empty_layer Sample.layer_remove _ _ _ Hr).
Defined.

Lemma LayerManager_eq (a b : LayerManager.t) :
  LayerManager.container a = LayerManager.container b ->
  LayerManager.containerSize a = LayerManager.containerSize b ->
  LayerManager.defaultZIndex a = LayerManager.defaultZIndex b ->
  LayerManager.layerMap a = LayerManager.layerMap b ->
  LayerManager.totalShapeCount a = LayerManager.totalShapeCount b ->
  a = b.
Proof. destruct a, b; simpl; intros; congruence. Qed.

Lemma LayerManager_clear_fields (lm : LayerManager.t) :
  LayerManager.container (LayerManager.clear lm) =
    LayerManager.container lm /\
  LayerManager.containerSize (LayerManager.clear lm) =
    LayerManager.containerSize lm /\
  LayerManager.defaultZIndex (LayerManager.clear lm) =
    LayerManager.defaultZIndex lm /\
  LayerManager.totalShapeCount (LayerManager.clear lm) =
    LayerManager.totalShapeCount lm.
Proof.
  unfold LayerManager.clear.
  apply (map_fold_weak_ind (fun r (_ : gmap Z Layer.t) =>
    LayerManager.container r = LayerManager.container lm /\
    LayerManager.containerSize r = LayerManager.containerSize lm /\
    LayerManager.defaultZIndex r = LayerManager.defaultZIndex lm /\
    LayerManager.totalShapeCount r = LayerManager.totalShapeCount lm)).
  - repeat split.
  - intros z l m r _ IH. unfold LayerManager.clear_step.
    destruct (decide (z = 0)); exact IH.
Qed.

(** X13: [clear()] twice is [clear()] once.  It keeps layer 0, emptied, so
    it leaves an empty layer in the map exactly when the map had a layer 0
    before. *)
Theorem clear_idempotent (lm : LayerManager.t) :
  LayerManager.clear (LayerManager.clear lm) = LayerManager.clear lm /\
  LayerManager.layerMap (LayerManager.clear lm) !! 0 =
    Layer.clear <$> LayerManager.layerMap lm !! 0 /\
  (LayerManager.no_empty_layer (LayerManager.clear lm) <->
   LayerManager.layerMap lm !! 0 = None).
Proof.
  split; [|split].
  - destruct (LayerManager_clear_fields lm) as (H1 & H2 & H3 & H4).
    destruct (LayerManager_clear_fields (LayerManager.clear lm))
      as (G1 & G2 & G3 & G4).
    apply LayerManager_eq; try congruence.
    rewrite (LayerManager_clear_layerMap (LayerManager.clear lm)).
    rewrite (LayerManager_clear_layerMap lm).
    destruct (LayerManager.layerMap lm !! 0) as [l|].
    + rewrite lookup_singleton_eq. reflexivity.
    + rewrite lookup_empty. reflexivity.
  - rewrite LayerManager_clear_layerMap.
    destruct (LayerManager.layerMap lm !! 0) as [l|]; simpl.
    + apply lookup_singleton_eq.
    + apply lookup_empty.
  - unfold LayerManager.no_empty_layer.
    rewrite LayerManager_clear_layerMap.
    destruct (LayerManager.layerMap lm !! 0) as [l|]; split.
    + intros H. exfalso.
      apply (H 0 (Layer.clear l)); [apply lookup_singleton_eq|reflexivity].
    + discriminate.
    + reflexivity.
    + intros _. apply map_Forall_empty.
Qed.

(** X14: [clear()] does not reset the running total: the next
    [getTotalCount()] returns the total from before the [clear()], though no
    layer holds a shape. *)
Theorem getTotalCount_after_clear (lm : LayerManager.t) :
  fst (LayerManager.getTotalCount (LayerManager.clear lm)) =
    LayerManager.totalShapeCount lm /\
  LayerManager.addCounts 0
    (LayerManager.layerMap (LayerManager.clear lm)) = 0.
Proof.
  destruct (LayerManager_clear_fields lm) as (_ & _ & _ & Ht).
  split; [|apply LayerManager_clear_no_shapes].
  unfold LayerManager.getTotalCount. simpl.
  rewrite addCounts_start, Ht, LayerManager_clear_no_shapes. lia.
Qed.

(** X15: two [getTotalCount()] calls in a row return the same number exactly
    when the layers hold no shape at all. *)
Theorem getTotalCount_repeatable_iff (lm : LayerManager.t) :
  fst (LayerManager.getTotalCount (snd (LayerManager.getTotalCount lm))) =
    fst (LayerManager.getTotalCount lm) <->
  LayerManager.addCounts 0 (LayerManager.layerMap lm) = 0.
Proof.
  unfold LayerManager.getTotalCount. simpl.
  rewrite (addCounts_start (LayerManager.addCounts _ _)).
  lia.
Qed.

(** X16: [append] then [remove] of the same shape on a z-index that had no
    layer gives the manager back as it was, provided [Layer.remove] empties
    the layer that holds that one shape. *)
Theorem append_remove_roundtrip
    (layer_remove : Shape.t -> Layer.t -> Layer.t)
    (z : Z) (s : Shape.t) (lm : LayerManager.t) :
  LayerManager.layerMap lm !! z = None ->
  Layer.getCount (layer_remove s (Layer.append s (Layer.new z))) = 0 ->
  LayerManager.remove layer_remove z s (LayerManager.append z s lm) =
    Some lm.
Proof.
  intros Hz Hrm. unfold LayerManager.remove.
  rewrite append_layerMap, Hz, lookup_insert_eq. simpl.
  rewrite Hrm. simpl. f_equal.
  apply LayerManager_eq; simpl;
    try (unfold LayerManager.append; rewrite Hz; reflexivity).
  rewrite insert_insert_eq, delete_insert_eq. apply delete_id. exact Hz.
Qed.

Lemma append_remove_roundtrip_witness :
  let s :=
    Shape.new 1 {| Shape.pin := (num 0, num 0); Shape.rotate := None |} in
  let lm :=
    LayerManager.append 3 s
      (LayerManager.new {| HTMLElement.offsetWidth := 800;
                           HTMLElement.offsetHeight := 600 |}) in
  LayerManager.layerMap lm !! 0 = None /\
  LayerManager.remove Sample.layer_remove 0 s (LayerManager.append 0 s lm) =
    Some lm.
Proof.
  cbn zeta. split; [reflexivity|].
  apply append_remove_roundtrip; reflexivity.
Defined.

(** ** The world *)

(** X17: the world builds its boundary manager from
    [[getWidth(), getHeight()]], and so hands it the container's height
    first and its width second. *)
Theorem World_boundaries_size (e : HTMLElement.t) :
  BoundariesManager.size
    (WorldCreator.boundariesManager (WorldCreator.new e)) =
    (HTMLElement.offsetHeight e, HTMLElement.offsetWidth e).
Proof. reflexivity. Qed.

(** X18: the angular drag a world is built with is never 0 or NaN (a
    configured 0 gives way to 0.15), while [setGlobalForce] takes any
    [angularDrag] it is given, 0 included; a configured gravity is always
    taken, the zero vector included. *)
Theorem angularDrag_zero_only_by_set (opt : WorldCreator.WorldConfig)
    (a : number) (p : WorldCreator.WorldConfig) (o : WorldCreator.Opt) :
  WorldCreator.angularDrag p = Some a ->
  truthy (WorldCreator.opt_angularDrag (WorldCreator.initGlobalForce opt))
    = true /\
  WorldCreator.opt_angularDrag (WorldCreator.setGlobalForce p o) = a /\
  WorldCreator.opt_gravity (WorldCreator.initGlobalForce opt) =
    match WorldCreator.gravity opt with
    | Some g => g
    | None => (num 0, num 5)
    end.
Proof.
  intros Hp. split; [|split].
  - unfold WorldCreator.initGlobalForce. simpl.
    destruct (WorldCreator.angularDrag opt) as [d|]; simpl; [|reflexivity].
    destruct (truthy d) eqn:E; [exact E|reflexivity].
  - unfold WorldCreator.setGlobalForce. simpl. rewrite Hp. reflexivity.
  - unfold WorldCreator.initGlobalForce. simpl.
    destruct (WorldCreator.gravity opt); reflexivity.
Qed.

Lemma angularDrag_zero_only_by_set_witness :
  let zero :=
    {| WorldCreator.gravity := None; WorldCreator.linearDrag := None;
       WorldCreator.angularDrag := Some (num 0) |} in
  WorldCreator.opt_angularDrag (WorldCreator.initGlobalForce zero) =
    Fin (3 # 20) /\
  WorldCreator.opt_angularDrag
    (WorldCreator.setGlobalForce zero (WorldCreator.initGlobalForce zero)) =
    num 0.
Proof.
  cbn zeta. split; [reflexivity|].
  set (zero := {| WorldCreator.gravity := None;
                  WorldCreator.linearDrag := None;
                  WorldCreator.angularDrag := Some (num 0) |}).
  exact (proj1 (proj2 (angularDrag_zero_only_by_set zero (num 0) zero
                         (WorldCreator.initGlobalForce zero) eq_refl))).
Defined.


Section Append.
Context {P : WorldCreator.Parts}.

Lemma append_boundaries_only (items : list WorldCreator.BodyType)
    (w1 w2 : WorldCreator.t) :
  WorldCreator.boundariesManager w1 = WorldCreator.boundariesManager w2 ->
  WorldCreator.boundariesManager
    (WorldCreator.append (inr items) w1) =
  WorldCreator.boundariesManager
    (WorldCreator.append
       (inr (List.filter WorldCreator.is_boundary items)) w2).
Proof.
  revert w1 w2. induction items as [|[b|bd] items IH]; intros w1 w2 H; simpl.
  - exact H.
  - apply IH. exact H.
  - apply IH. simpl. rewrite H. reflexivity.
Qed.

Lemma append_bodies_only (items : list WorldCreator.BodyType)
    (w1 w2 : WorldCreator.t) :
  WorldCreator.Renderer w1 = WorldCreator.Renderer w2 ->
  WorldCreator.bodyHeap w1 = WorldCreator.bodyHeap w2 ->
  let w1' := WorldCreator.append (inr items) w1 in
  let w2' :=
    WorldCreator.append
      (inr (List.filter (fun i => negb (WorldCreator.is_boundary i)) items))
      w2 in
  WorldCreator.Renderer w1' = WorldCreator.Renderer w2' /\
  WorldCreator.bodyHeap w1' = WorldCreator.bodyHeap w2'.
Proof.
  cbn zeta. revert w1 w2.
  induction items as [|[b|bd] items IH]; intros w1 w2 Hr Hh; simpl.
  - split; assumption.
  - apply IH; simpl; [rewrite Hr|rewrite Hh]; reflexivity.
  - apply IH; assumption.
Qed.

End Append.

(** X20: in [append] of an array, bodies and boundaries do not meet: the
    boundary manager ends up as if only the boundaries of the array had been
    appended, and the renderer and the body heap as if only its bodies had,
    whatever the three collaborators do with what they are given. *)
Theorem append_separates_kinds {P : WorldCreator.Parts}
    (items : list WorldCreator.BodyType) (w : WorldCreator.t) :
  let w' := WorldCreator.append (inr items) w in
  let boundaries := List.filter WorldCreator.is_boundary items in
  let bodies :=
    List.filter (fun i => negb (WorldCreator.is_boundary i)) items in
  WorldCreator.boundariesManager w' =
    WorldCreator.boundariesManager
      (WorldCreator.append (inr boundaries) w) /\
  WorldCreator.Renderer w' =
    WorldCreator.Renderer (WorldCreator.append (inr bodies) w) /\
  WorldCreator.bodyHeap w' =
    WorldCreator.bodyHeap (WorldCreator.append (inr bodies) w).
Proof.
  cbn zeta. split.
  - apply append_boundaries_only. reflexivity.
  - apply append_bodies_only; reflexivity.
Qed.

(** ** Shapes *)

Lemma chain_events (ws : list shape.write) (s : shape.t) :
  snd (shape.chain ws s) =
    (if shape._isMount s then repeat shape.Notify (length ws) else []) /\
  shape._isMount (fst (shape.chain ws s)) = shape._isMount s.
Proof.
  revert s. induction ws as [|w ws IH]; intros s.
  - simpl. destruct (shape._isMount s); split; reflexivity.
  - simpl.
    assert (Hc : exists s', shape.call w s = shape.Self s' (shape.notify s) /\
                            shape._isMount s' = shape._isMount s).
    { destruct w; simpl; eexists; split; reflexivity. }
    destruct Hc as (s' & -> & Hm).
    destruct (IH s') as [IHe IHm].
    destruct (shape.chain ws s') as [s'' evs] eqn:E. simpl in *.
    rewrite IHe, IHm, Hm. split; [|reflexivity].
    unfold shape.notify. destruct (shape._isMount s); reflexivity.
Qed.

(** X21: a chain of the attribute setters [x], [y], [color], [fill] and
    [rotate] notifies the broadcast once per call on a mounted shape and not
    at all on one that is not mounted, and leaves the shape mounted or not
    as it was; a new shape is not mounted, so a chain on it notifies
    nothing. *)
Theorem setters_notify_when_mounted (ws : list shape.write) (s : shape.t)
    (sym : positive) (config : shape.shapeConfig) (type : string) :
  snd (shape.chain ws s) =
    (if shape._isMount s then repeat shape.Notify (length ws) else []) /\
  shape._isMount (fst (shape.chain ws s)) = shape._isMount s /\
  snd (shape.chain ws (shape.new sym config type)) = [].
Proof.
  destruct (chain_events ws s) as [H1 H2].
  split; [exact H1|]. split; [exact H2|].
  destruct (chain_events ws (shape.new sym config type)) as [H3 _].
  exact H3.
Qed.

(** X22: the shape built from [getBaseConfig()] of a shape has its [x],
    [y], [color] and [fill]; it has its [rotate] unless that is NaN, which
    becomes 0; and it has none of its hooks, is shown and is not mounted,
    whatever the shape it was built from. *)
Theorem getBaseConfig_rebuild (s : shape.t) (sym : positive)
    (type : string) :
  let s' := shape.new sym (shape.getBaseConfig s) type in
  shape._x s' = shape._x s /\ shape._y s' = shape._y s /\
  shape._color s' = shape._color s /\ shape._fill s' = shape._fill s /\
  shape._rotate s' =
    (if truthy (shape._rotate s) then shape._rotate s else num 0) /\
  eqb (shape._rotate s') (shape._rotate s) =
    negb (match shape._rotate s with NaN => true | _ => false end) /\
  shape._mounted s' = None /\ shape._removed s' = None /\
  shape._isShow s' = true /\ shape._isMount s' = false.
Proof.
  cbn zeta. unfold shape.new, shape.getBaseConfig. simpl.
  repeat (split; [reflexivity|]).
  split; [|repeat split].
  destruct (shape._rotate s) as [q| | |]; simpl; try reflexivity.
  destruct (Qeq_bool q 0) eqn:E; simpl.
  - change (inject_Z 0) with 0%Q. apply Qeq_bool_iff. apply Qeq_bool_iff in E.
    symmetry. exact E.
  - apply Qeq_bool_iff. reflexivity.
Qed.
